(** * Finance health predictor: the entry form and the results view

    A shallow embedding of [src/Frontend/src/pages/InputForm.jsx] and of the
    mount logic and currency formatter of
    [src/Frontend/src/pages/Dashboard.jsx], with the properties the
    specification states about them.

    Layout:
    - [JsNumber]: the double-precision numbers of the host language;
    - [JsString]: the string primitives the form uses ([replace] with a
      character class, [split], [slice], [parseFloat]);
    - [Intl]: [Intl.NumberFormat('en-IN', {maximumFractionDigits: 0})];
    - [InputForm]: the form state and its handlers;
    - [Dashboard]: the results view;
    - the theorems, one section per property. *)

From stdpp Require Import gmap strings list.
From Stdlib Require Import ZArith Lia String Ascii.

Open Scope Z_scope.

(** ** Double-precision numbers *)

Module JsNumber.

(** Every finite binary64 value is an integer multiple of [2^-1074], the
    smallest subnormal.  [Fin k] is the double [k * 2^-1074].  The two zeros
    are identified: [Fin 0] stands for [+0], and a computation that yields
    [-0] is outside the model.  The sign of a zero shows in a quotient by it
    and in its printed form ([-0]); the entry form never produces one, its
    texts carrying no sign. *)
Inductive number : Type :=
  | NaN
  | PosInf
  | NegInf
  | Fin (k : Z).

Definition scale : Z := 2 ^ 1074.

(** First magnitude (in units of [2^-1074]) that is no longer finite:
    [2^1024]. *)
Definition overflow_threshold : Z := 2 ^ 2098.

(** Nearest integer to [p / d], ties to even ([0 <= p], [0 < d]). *)
Definition rne_div (p d : Z) : Z :=
  let q := p / d in
  let r := p mod d in
  if 2 * r <? d then q
  else if d <? 2 * r then q + 1
  else if Z.even q then q else q + 1.

(** Round the non-negative rational [p / d] (in units) to 53 significant
    bits; [None] on overflow. *)
Definition round_mag (p d : Z) : option Z :=
  let q := p / d in
  let sh := Z.max 0 (Z.log2 q - 52) in
  let k := rne_div p (d * 2 ^ sh) * 2 ^ sh in
  if overflow_threshold <=? k then None else Some k.

(** Round-to-nearest-even of the rational [p / d] units ([0 < d]). *)
Definition round_ratio (p d : Z) : number :=
  match round_mag (Z.abs p) d with
  | Some k => Fin (Z.sgn p * k)
  | None => if p <? 0 then NegInf else PosInf
  end.

(** The double nearest to the integer [n]. *)
Definition of_Z (n : Z) : number := round_ratio (n * scale) 1.

(** The double nearest to [m * 10^e]. *)
Definition of_decimal (m e : Z) : number :=
  if 0 <=? e then round_ratio (m * 10 ^ e * scale) 1
  else round_ratio (m * scale) (10 ^ (- e)).

Definition isNaN (x : number) : bool :=
  match x with NaN => true | _ => false end.

Definition isFinite (x : number) : bool :=
  match x with Fin _ => true | _ => false end.

Definition neg (x : number) : number :=
  match x with
  | NaN => NaN
  | PosInf => NegInf
  | NegInf => PosInf
  | Fin k => Fin (- k)
  end.

(** [Math.abs]. *)
Definition abs (x : number) : number :=
  match x with
  | NaN => NaN
  | PosInf | NegInf => PosInf
  | Fin k => Fin (Z.abs k)
  end.

(** [x + y]. *)
Definition add (x y : number) : number :=
  match x, y with
  | NaN, _ | _, NaN => NaN
  | PosInf, NegInf | NegInf, PosInf => NaN
  | PosInf, _ | _, PosInf => PosInf
  | NegInf, _ | _, NegInf => NegInf
  | Fin a, Fin b => round_ratio (a + b) 1
  end.

(** [x - y]. *)
Definition sub (x y : number) : number := add x (neg y).

(** [x < y]; false as soon as one side is [NaN]. *)
Definition ltb (x y : number) : bool :=
  match x, y with
  | NaN, _ | _, NaN => false
  | _, NegInf => false
  | NegInf, _ => true
  | PosInf, _ => false
  | Fin _, PosInf => true
  | Fin a, Fin b => a <? b
  end.

(** [x > y]. *)
Definition gtb (x y : number) : bool := ltb y x.

(** [x <= y]; false as soon as one side is [NaN]. *)
Definition leb (x y : number) : bool :=
  match x, y with
  | NaN, _ | _, NaN => false
  | NegInf, _ => true
  | _, PosInf => true
  | _, NegInf => false
  | PosInf, _ => false
  | Fin a, Fin b => a <=? b
  end.

(** [x === y] on numbers. *)
Definition strict_eqb (x y : number) : bool :=
  match x, y with
  | PosInf, PosInf | NegInf, NegInf => true
  | Fin a, Fin b => a =? b
  | _, _ => false
  end.

(** [x !== y] on numbers. *)
Definition strict_neqb (x y : number) : bool := negb (strict_eqb x y).

(** Truthiness of a number: [0] and [NaN] are falsy. *)
Definition truthy (x : number) : bool :=
  match x with
  | NaN => false
  | Fin k => negb (k =? 0)
  | _ => true
  end.

End JsNumber.

Import JsNumber.

(** ** Strings

    A string of the host language is modelled by its UTF-8 bytes.  All the
    characters the form manipulates are ASCII; a character outside ASCII is
    a run of bytes above 127, which no character class below matches. *)

Module JsString.

Open Scope string_scope.
Open Scope Z_scope.

Definition char_between (lo hi c : ascii) : bool :=
  ((N_of_ascii lo <=? N_of_ascii c) && (N_of_ascii c <=? N_of_ascii hi))%N.

Definition is_digit (c : ascii) : bool := char_between "0" "9" c.

Definition digit_value (c : ascii) : Z :=
  Z.of_N (N_of_ascii c) - 48.

(** *** Regular-expression character classes, as far as the form uses them *)

Inductive class_item : Type :=
  | Range (lo hi : ascii)
  | Single (c : ascii).

Record char_class : Type := CharClass {
  negated : bool;
  items : list class_item
}.

Definition item_matches (c : ascii) (i : class_item) : bool :=
  match i with
  | Range lo hi => char_between lo hi c
  | Single d => Ascii.eqb c d
  end.

Definition class_matches (cls : char_class) (c : ascii) : bool :=
  xorb (negated cls) (existsb (item_matches c) (items cls)).

(** [s.replace(/cls/g, '')]: every character matching the class is removed. *)
Fixpoint replace_all_empty (cls : char_class) (s : string) : string :=
  match s with
  | "" => ""
  | String c s' =>
      if class_matches cls c then replace_all_empty cls s'
      else String c (replace_all_empty cls s')
  end.

(** [s.split(sep)] for a one-character separator. *)
Fixpoint split (sep : ascii) (s : string) : list string :=
  match s with
  | "" => [""]
  | String c s' =>
      if Ascii.eqb c sep then "" :: split sep s'
      else match split sep s' with
           | h :: t => String c h :: t
           | [] => [String c ""]
           end
  end.

(** [s.slice(start, end)]; negative indices count from the end. *)
Definition slice_index (len i : Z) : Z :=
  if i <? 0 then Z.max (len + i) 0 else Z.min i len.

Definition slice (s : string) (start stop : Z) : string :=
  let len := Z.of_nat (String.length s) in
  let from := slice_index len start in
  let to := slice_index len stop in
  substring (Z.to_nat from) (Z.to_nat (Z.max (to - from) 0)) s.

(** *** [parseFloat] *)

(** Leading white space and line terminators are skipped.  The characters
    outside ASCII appear by their UTF-8 encoding: U+00A0, U+1680,
    U+2000..U+200A, U+2028, U+2029, U+202F, U+205F, U+3000, U+FEFF. *)
Definition is_ascii_space (c : ascii) : bool :=
  let n := N_of_ascii c in
  ((9 <=? n) && (n <=? 13) || (n =? 32))%N.

Definition space3 (a b c : ascii) : bool :=
  let x := N_of_ascii a in
  let y := N_of_ascii b in
  let z := N_of_ascii c in
  ((x =? 225) && (y =? 154) && (z =? 128)
   || (x =? 226) && (y =? 128) && (128 <=? z) && (z <=? 138)
   || (x =? 226) && (y =? 128) && ((z =? 168) || (z =? 169) || (z =? 175))
   || (x =? 226) && (y =? 129) && (z =? 159)
   || (x =? 227) && (y =? 128) && (z =? 128)
   || (x =? 239) && (y =? 187) && (z =? 191))%N.

Fixpoint trim_start (s : string) : string :=
  match s with
  | String a s1 =>
      if is_ascii_space a then trim_start s1
      else match s1 with
           | String b s2 =>
               if ((N_of_ascii a =? 194) && (N_of_ascii b =? 160))%N
               then trim_start s2
               else match s2 with
                    | String c s3 =>
                        if space3 a b c then trim_start s3 else s
                    | "" => s
                    end
           | "" => s
           end
  | "" => s
  end.

(** The longest run of decimal digits at the head of [s], as digit values
    (most significant first), and what follows it. *)
Fixpoint span_digits (s : string) : list Z * string :=
  match s with
  | String c s' =>
      if is_digit c then
        let '(ds, rest) := span_digits s' in (digit_value c :: ds, rest)
      else ([], s)
  | "" => ([], s)
  end.

Definition digits_value (ds : list Z) : Z :=
  fold_left (fun a d => 10 * a + d) ds 0.

(** [ExponentPart]: [e] or [E], an optional sign, at least one digit.
    Returns the exponent and what follows; exponent [0] and the input itself
    when there is no well-formed exponent part. *)
Definition scan_exponent (s : string) : Z * string :=
  match s with
  | String c s1 =>
      if Ascii.eqb c "e" || Ascii.eqb c "E" then
        let '(neg, s2) :=
          match s1 with
          | String "-" t => (true, t)
          | String "+" t => (false, t)
          | _ => (false, s1)
          end in
        match span_digits s2 with
        | ([], _) => (0, s)
        | (ds, rest) => (if neg then - digits_value ds else digits_value ds, rest)
        end
      else (0, s)
  | "" => (0, s)
  end.

(** [StrUnsignedDecimalLiteral]: the mathematical value [m * 10^e] of the
    longest prefix that is a literal, or [Infinity]; and what follows the
    literal. *)
Inductive literal : Type :=
  | LitNone
  | LitInfinity
  | LitDecimal (m e : Z).

Definition scan_unsigned (s : string) : literal * string :=
  if String.prefix "Infinity" s then (LitInfinity, slice s 8 (Z.of_nat (String.length s)))
  else
    let '(ip, r1) := span_digits s in
    let '(fp, r2) :=
      match r1 with
      | String "." t => span_digits t
      | _ => ([], r1)
      end in
    match ip, fp with
    | [], [] => (LitNone, s)
    | _, _ =>
        let '(e, r3) := scan_exponent r2 in
        (LitDecimal (digits_value (ip ++ fp)%list) (e - Z.of_nat (List.length fp)), r3)
    end.

(** [StrDecimalLiteral]: an optional sign and an unsigned literal. *)
Definition scan_signed (s : string) : option number * string :=
  let '(neg, s1) :=
    match s with
    | String "-" t => (true, t)
    | String "+" t => (false, t)
    | _ => (false, s)
    end in
  match scan_unsigned s1 with
  | (LitNone, _) => (None, s)
  | (LitInfinity, rest) => (Some (if neg then NegInf else PosInf), rest)
  | (LitDecimal m e, rest) => (Some (of_decimal (if neg then - m else m) e), rest)
  end.

(** [parseFloat(input)]: the value of the longest prefix of the trimmed
    input that is a decimal literal, [NaN] when there is none. *)
Definition parseFloat (input : string) : number :=
  match fst (scan_signed (trim_start input)) with
  | Some x => x
  | None => NaN
  end.

(** *** [Number(input)] on strings *)

Definition radix_digit (radix : Z) (c : ascii) : option Z :=
  let n := Z.of_N (N_of_ascii c) in
  let d :=
    if is_digit c then n - 48
    else if char_between "a" "f" c then n - 87
    else if char_between "A" "F" c then n - 55
    else radix in
  if d <? radix then Some d else None.

(** Value of the longest run of digits of the radix at the head of [s],
    how many there are, and what follows. *)
Fixpoint radix_value (radix : Z) (s : string) (acc : Z) (n : nat)
  : Z * nat * string :=
  match s with
  | "" => (acc, n, s)
  | String c s' =>
      match radix_digit radix c with
      | Some d => radix_value radix s' (radix * acc + d) (S n)
      | None => (acc, n, s)
      end
  end.

Definition only_spaces (s : string) : bool := String.eqb (trim_start s) "".

Definition radix_literal (radix : Z) (s : string) : number :=
  match radix_value radix s 0 0 with
  | (_, O, _) => NaN
  | (v, _, rest) => if only_spaces rest then of_Z v else NaN
  end.

Definition decimal_literal (s : string) : number :=
  match scan_signed s with
  | (Some v, rest) => if only_spaces rest then v else NaN
  | (None, _) => NaN
  end.

(** [Number(input)]: white space is accepted on both sides, the rest has to
    be one numeric literal; the empty string converts to [0]. *)
Definition string_to_number (input : string) : number :=
  let s := trim_start input in
  match s with
  | "" => Fin 0
  | String "0" (String x t) =>
      if Ascii.eqb x "x" || Ascii.eqb x "X" then radix_literal 16 t
      else if Ascii.eqb x "o" || Ascii.eqb x "O" then radix_literal 8 t
      else if Ascii.eqb x "b" || Ascii.eqb x "B" then radix_literal 2 t
      else decimal_literal s
  | _ => decimal_literal s
  end.

End JsString.

Import JsString.

(** ** [Intl.NumberFormat('en-IN', { maximumFractionDigits: 0 })] *)

Module Intl.

Open Scope string_scope.
Open Scope Z_scope.

(** Magnitude of a finite double rounded to an integer, ties away from zero
    (the default rounding mode, [halfExpand]). *)
Definition round_half_expand (k : Z) : Z :=
  (2 * Z.abs k + scale) / (2 * scale).

(** Decimal digits of [n], least significant first. *)
Fixpoint le_digits (fuel : nat) (n : Z) : list Z :=
  match fuel with
  | O => []
  | S f => (n mod 10) :: (if n <? 10 then [] else le_digits f (n / 10))
  end.

Definition digit_char (d : Z) : ascii := ascii_of_N (Z.to_N (48 + d)).

Definition le_digit_chars (n : Z) : list ascii :=
  map digit_char (le_digits (S (Z.to_nat (Z.log2 n))) n).

(** The grouping of the locale, on digits given least significant first:
    one group of three, then groups of two. *)
Fixpoint group_pairs (l : list ascii) : list ascii :=
  match l with
  | a :: b :: ((_ :: _) as rest) => a :: b :: ","%char :: group_pairs rest
  | _ => l
  end.

Definition group_indian (l : list ascii) : list ascii :=
  match l with
  | a :: b :: c :: ((_ :: _) as rest) =>
      a :: b :: c :: ","%char :: group_pairs rest
  | _ => l
  end.

Definition format_integer (n : Z) : string :=
  string_of_list_ascii (rev (group_indian (le_digit_chars n))).

(** From [2^53] up the formatter no longer prints the digits of the double's
    exact value: it prints the shortest decimal that reads back as the same
    double, the nearest to the double when several are as short, and fills
    up with zeros. *)

(** The integer [c] reads back as the double of magnitude [k]. *)
Definition reads_back (k c : Z) : bool := strict_eqb (of_Z c) (Fin k).

(** Digit generation down to the digit of weight [10^p]: [lo] and [hi] are
    the two multiples of [10^p] around [n]; generation stops at the first
    weight where one of them reads back, and takes the nearer one, the one
    with an even last digit when they are as near. *)
Fixpoint shortest_digits (p : nat) (k n : Z) : Z :=
  let u := 10 ^ Z.of_nat p in
  let lo := n / u * u in
  let hi := lo + u in
  match reads_back k lo, reads_back k hi with
  | true, true =>
      if 2 * (n - lo) <? u then lo
      else if u <? 2 * (n - lo) then hi
      else if Z.even (lo / u) then lo else hi
  | true, false => lo
  | false, true => hi
  | false, false =>
      match p with
      | O => n
      | S p' => shortest_digits p' k n
      end
  end.

(** The integer whose digits are printed for the double of magnitude
    [k]. *)
Definition printed_integer (k : Z) : Z :=
  let n := round_half_expand k in
  if n <? 2 ^ 53 then n
  else shortest_digits (List.length (le_digits (S (Z.to_nat (Z.log2 n))) n))
                       (Z.abs k) n.

(** [format(x)] at a number.  A negative value keeps its sign even when it
    rounds to zero. *)
Definition format (x : number) : string :=
  match x with
  | NaN => "NaN"
  | PosInf => "∞"
  | NegInf => "-∞"
  | Fin k =>
      (if k <? 0 then "-" else "") ++ format_integer (printed_integer k)
  end.

(** [format(x)] at a string: the text is read as a numeric literal and
    keeps its exact decimal value, which is not rounded to a double; only a
    literal too large for a double becomes an infinity. *)
Inductive mathematical_value : Type :=
  | NotANumber
  | Infinite (negative : bool)
  | Decimal (negative : bool) (m e : Z).

Definition radix_mathematical_value (radix : Z) (s : string)
  : mathematical_value :=
  match radix_value radix s 0 0 with
  | (_, O, _) => NotANumber
  | (v, _, rest) =>
      if only_spaces rest then
        match of_Z v with
        | Fin _ => Decimal false v 0
        | _ => Infinite false
        end
      else NotANumber
  end.

Definition decimal_mathematical_value (s : string) : mathematical_value :=
  let '(negative, s1) :=
    match s with
    | String "-" t => (true, t)
    | String "+" t => (false, t)
    | _ => (false, s)
    end in
  match scan_unsigned s1 with
  | (LitNone, _) => NotANumber
  | (LitInfinity, rest) =>
      if only_spaces rest then Infinite negative else NotANumber
  | (LitDecimal m e, rest) =>
      if only_spaces rest then
        match of_decimal m e with
        | Fin _ => Decimal negative m e
        | _ => Infinite negative
        end
      else NotANumber
  end.

Definition string_to_mathematical_value (input : string)
  : mathematical_value :=
  let s := trim_start input in
  match s with
  | "" => Decimal false 0 0
  | String "0" (String x t) =>
      if Ascii.eqb x "x" || Ascii.eqb x "X" then radix_mathematical_value 16 t
      else if Ascii.eqb x "o" || Ascii.eqb x "O" then radix_mathematical_value 8 t
      else if Ascii.eqb x "b" || Ascii.eqb x "B" then radix_mathematical_value 2 t
      else decimal_mathematical_value s
  | _ => decimal_mathematical_value s
  end.

(** [m * 10^e] rounded to an integer, ties away from zero ([0 <= m]). *)
Definition round_decimal (m e : Z) : Z :=
  if 0 <=? e then m * 10 ^ e
  else (2 * m + 10 ^ (- e)) / (2 * 10 ^ (- e)).

Definition format_string (input : string) : string :=
  match string_to_mathematical_value input with
  | NotANumber => "NaN"
  | Infinite negative => (if negative then "-" else "") ++ "∞"
  | Decimal negative m e =>
      (if negative then "-" else "") ++ format_integer (round_decimal m e)
  end.

End Intl.

(** ** Values *)

Module JsValue.

Open Scope string_scope.
Open Scope Z_scope.

(** The values that travel through the two views: primitives and the plain
    objects of a parsed JSON body or of a navigation payload.  Arrays are
    left out; the one array the views expect, the history, is a list of
    values where it is read. *)
#[warnings="-register-all"]
Inductive value : Type :=
  | VUndefined
  | VNull
  | VBool (b : bool)
  | VNum (n : number)
  | VStr (s : string)
  | VObj (props : list (string * value)).

(** [!!v]. *)
Definition truthy (v : value) : bool :=
  match v with
  | VUndefined | VNull => false
  | VBool b => b
  | VNum n => JsNumber.truthy n
  | VStr s => negb (String.eqb s "")
  | VObj _ => true
  end.

(** [a || b]. *)
Definition or_else (a b : value) : value := if truthy a then a else b.

(** [v.key], [undefined] when the property is missing or [v] is a
    primitive with no such property. *)
Definition get_prop (key : string) (v : value) : value :=
  match v with
  | VObj props =>
      match find (fun kv => String.eqb (fst kv) key) props with
      | Some kv => snd kv
      | None => VUndefined
      end
  | _ => VUndefined
  end.

(** [parseFloat(v)]: the argument is first converted to a string.  A number
    prints to the shortest literal that reads back as itself, so it is its
    own result; [undefined], [null], the booleans and plain objects print to
    words that are no literal. *)
Definition parseFloat_value (v : value) : number :=
  match v with
  | VNum n => n
  | VStr s => parseFloat s
  | _ => NaN
  end.

(** [Number(v)]. *)
Definition to_number (v : value) : number :=
  match v with
  | VUndefined => NaN
  | VNull => Fin 0
  | VBool b => if b then of_Z 1 else Fin 0
  | VNum n => n
  | VStr s => string_to_number s
  | VObj _ => NaN
  end.

End JsValue.

Import JsValue.

(** ** Side effects of the handlers, in the order they are issued *)

(** The record sent to the scoring endpoint. *)
Record numeric_data : Type := NumericData {
  nd_monthly_income : number;
  nd_monthly_expenses : number;
  nd_loan_emi : number;
  nd_savings : number;
  nd_investments : number
}.

Inductive effect : Type :=
  | PreventDefault
  | ScrollTo (x y : Z)
  | Fetch (method url : string) (body : option numeric_data)
  | Navigate (path : string) (payload : value)
  | ConsoleError (label : string)
  | Alert (message : string).

Definition is_fetch (e : effect) : bool :=
  match e with Fetch _ _ _ => true | _ => false end.

(** What a [fetch] resolves to: a transport failure, or a response with its
    [ok] flag and its body parsed as JSON ([None] when [json()] rejects). *)
Inductive fetch_result : Type :=
  | NetworkFailure
  | Response (ok : bool) (json : option value).

(** ** The entry form *)

Module InputForm.

Open Scope string_scope.
Open Scope Z_scope.

Inductive field : Type :=
  | monthly_income
  | monthly_expenses
  | loan_emi
  | savings
  | investments.

#[global] Instance field_eq_dec : EqDecision field.
Proof. solve_decision. Defined.

Definition field_index (f : field) : nat :=
  match f with
  | monthly_income => 0
  | monthly_expenses => 1
  | loan_emi => 2
  | savings => 3
  | investments => 4
  end%nat.

Definition field_of_index (n : nat) : field :=
  match n with
  | 0 => monthly_income
  | 1 => monthly_expenses
  | 2 => loan_emi
  | 3 => savings
  | _ => investments
  end%nat.

Lemma field_of_index_index (f : field) : field_of_index (field_index f) = f.
Proof. by destruct f. Qed.

#[global] Instance field_countable : Countable field :=
  inj_countable' field_index field_of_index field_of_index_index.

Definition field_eqb (f g : field) : bool := bool_decide (f = g).

(** [formData]: the display string of each field. *)
Record form_data : Type := FormData {
  fd_monthly_income : string;
  fd_monthly_expenses : string;
  fd_loan_emi : string;
  fd_savings : string;
  fd_investments : string
}.

(** [formData[field]]. *)
Definition get (d : form_data) (f : field) : string :=
  match f with
  | monthly_income => fd_monthly_income d
  | monthly_expenses => fd_monthly_expenses d
  | loan_emi => fd_loan_emi d
  | savings => fd_savings d
  | investments => fd_investments d
  end.

(** [{...prev, [name]: v}]. *)
Definition set (d : form_data) (f : field) (v : string) : form_data :=
  match f with
  | monthly_income =>
      FormData v (fd_monthly_expenses d) (fd_loan_emi d) (fd_savings d) (fd_investments d)
  | monthly_expenses =>
      FormData (fd_monthly_income d) v (fd_loan_emi d) (fd_savings d) (fd_investments d)
  | loan_emi =>
      FormData (fd_monthly_income d) (fd_monthly_expenses d) v (fd_savings d) (fd_investments d)
  | savings =>
      FormData (fd_monthly_income d) (fd_monthly_expenses d) (fd_loan_emi d) v (fd_investments d)
  | investments =>
      FormData (fd_monthly_income d) (fd_monthly_expenses d) (fd_loan_emi d) (fd_savings d) v
  end.

Definition empty_form : form_data := FormData "" "" "" "" "".

(** The component state: [formData], [errors] (an object whose keys are
    field names; a missing key reads [undefined]) and [isLoading]. *)
Record state : Type := State {
  formData : form_data;
  errors : gmap field string;
  isLoading : bool
}.

Definition initial : state := State empty_form ∅ false.

(** [errors[name]] read as a condition: a missing key and the empty message
    are both falsy. *)
Definition has_error (errs : gmap field string) (f : field) : bool :=
  match errs !! f with
  | Some msg => negb (String.eqb msg "")
  | None => false
  end.

(** [s || '0'] on strings. *)
Definition or_zero (s : string) : string :=
  if String.eqb s "" then "0" else s.

Definition formatIndianRupee (value : JsValue.value) : JsValue.value :=
  if negb (JsValue.truthy value) then VStr ""
  else
    let num := parseFloat_value value in
    if isNaN num then value
    else VStr (Intl.format num).

(** [formatIndianRupee] at a string argument, as [handleChange] calls it. *)
Definition formatIndianRupee_str (value : string) : string :=
  if String.eqb value "" then ""
  else
    let num := parseFloat value in
    if isNaN num then value
    else Intl.format num.

Definition commas : char_class := CharClass false [Single ","].

Definition parseIndianNumber (value : string) : string :=
  replace_all_empty commas value.

Definition calculateTotalExpenses (d : form_data) : number :=
  let expenses := parseFloat (parseIndianNumber (or_zero (fd_monthly_expenses d))) in
  let loanEmi := parseFloat (parseIndianNumber (or_zero (fd_loan_emi d))) in
  let savings := parseFloat (parseIndianNumber (or_zero (fd_savings d))) in
  let investments := parseFloat (parseIndianNumber (or_zero (fd_investments d))) in
  add (add (add expenses loanEmi) savings) investments.

Definition calculateBalance (d : form_data) : number :=
  let income := parseFloat (parseIndianNumber (or_zero (fd_monthly_income d))) in
  let totalExpenses := calculateTotalExpenses d in
  sub income totalExpenses.

(** The three constants computed on every render. *)
Definition totalExpenses (d : form_data) : number := calculateTotalExpenses d.
Definition balance (d : form_data) : number := calculateBalance d.
Definition income (d : form_data) : number :=
  parseFloat (parseIndianNumber (or_zero (fd_monthly_income d))).

(** *** Messages *)

Definition msg_required := "This field is required".
Definition msg_invalid := "Please enter a valid number".
Definition msg_negative := "Value cannot be negative".
Definition msg_zero_income := "Income cannot be zero".
Definition msg_limit := "Value exceeds reasonable limit".
Definition msg_income_bound := "Monthly income cannot exceed ₹150,000".
Definition msg_expenses_bound := "Monthly expenses cannot exceed ₹150,000".
Definition msg_income_sum :=
  "Income must equal the sum of Expenses, Loan EMI, Savings, and Investments".
Definition msg_total_sum := "Total must match monthly income".
Definition msg_alert :=
  "Failed to complete financial analysis. Please try again.".

Definition sanity_ceiling : number := of_Z 10000000000.
Definition bound : number := of_Z 150000.

(** *** [validateForm] *)

Definition numericFields : list field :=
  [monthly_income; monthly_expenses; loan_emi; savings; investments].

(** The body of the [forEach] callback: the message it assigns to
    [newErrors[field]], if any. *)
Definition checkField (d : form_data) (f : field) : option string :=
  let rawValue := parseIndianNumber (get d f) in
  if String.eqb rawValue "" then Some msg_required
  else
    let numValue := parseFloat rawValue in
    if isNaN numValue then Some msg_invalid
    else if ltb numValue (Fin 0) then Some msg_negative
    else if field_eqb f monthly_income && strict_eqb numValue (Fin 0)
    then Some msg_zero_income
    else if gtb numValue sanity_ceiling then Some msg_limit
    else if field_eqb f monthly_income && gtb numValue bound
    then Some msg_income_bound
    else if field_eqb f monthly_expenses && gtb numValue bound
    then Some msg_expenses_bound
    else None.

(** [newErrors] after the [forEach] loop. *)
Definition fieldErrors (d : form_data) : gmap field string :=
  fold_left
    (fun newErrors f =>
       match checkField d f with
       | Some msg => <[f := msg]> newErrors
       | None => newErrors
       end)
    numericFields ∅.

Definition sumErrors (newErrors : gmap field string) : gmap field string :=
  <[investments := msg_total_sum]>
    (<[savings := msg_total_sum]>
      (<[loan_emi := msg_total_sum]>
        (<[monthly_expenses := msg_total_sum]>
          (<[monthly_income := msg_income_sum]> newErrors)))).

(** [validateForm]: the errors it stores with [setErrors] and its result. *)
Definition validateForm (d : form_data) : gmap field string * bool :=
  let newErrors := fieldErrors d in
  let income := parseFloat (parseIndianNumber (or_zero (fd_monthly_income d))) in
  let totalExpenses := calculateTotalExpenses d in
  let balance := calculateBalance d in
  let newErrors :=
    if gtb income (Fin 0) && gtb totalExpenses (Fin 0) then
      if gtb (abs balance) (of_Z 1) then sumErrors newErrors else newErrors
    else newErrors in
  (newErrors, bool_decide (newErrors = ∅)).

(** *** [handleChange] *)

Definition not_numeric : char_class :=
  CharClass true [Range "0" "9"; Single "."; Single ","].

Definition sanitize (value : string) : string :=
  replace_all_empty not_numeric value.

Definition decimalCount (sanitizedValue : string) : Z :=
  Z.of_nat (List.length (split "." sanitizedValue)) - 1.

(** The candidate value after the multiple-decimal-point guard. *)
Definition guard (sanitizedValue : string) : string :=
  if 1 <? decimalCount sanitizedValue
  then slice sanitizedValue 0 (-1)
  else sanitizedValue.

(** The condition of the two real-time checks: [rawValue] is not empty and
    [parseFloat(rawValue)] is not [NaN]. *)
Definition parses (rawValue : string) : bool :=
  negb (String.eqb rawValue "") && negb (isNaN (parseFloat rawValue)).

Definition handleChange (st : state) (name : field) (value : string) : state :=
  let sanitizedValue := sanitize value in
  let finalValue := guard sanitizedValue in
  let rawValue := parseIndianNumber finalValue in
  (* real-time check of monthly_income *)
  if field_eqb name monthly_income && parses rawValue
     && gtb (parseFloat rawValue) bound
  then State (formData st)
             (<[monthly_income := msg_income_bound]> (errors st))
             (isLoading st)
  else
  let errors1 :=
    if field_eqb name monthly_income && parses rawValue
       && has_error (errors st) monthly_income
    then <[monthly_income := ""]> (errors st)
    else errors st in
  (* real-time check of monthly_expenses *)
  if field_eqb name monthly_expenses && parses rawValue
     && gtb (parseFloat rawValue) bound
  then State (formData st)
             (<[monthly_expenses := msg_expenses_bound]> errors1)
             (isLoading st)
  else
  let errors2 :=
    if field_eqb name monthly_expenses && parses rawValue
       && has_error (errors st) monthly_expenses
    then <[monthly_expenses := ""]> errors1
    else errors1 in
  let finalValue :=
    if parses rawValue then formatIndianRupee_str rawValue else finalValue in
  let errors3 :=
    if has_error (errors st) name
       && negb (field_eqb name monthly_income)
       && negb (field_eqb name monthly_expenses)
    then <[name := ""]> errors2
    else errors2 in
  State (set (formData st) name finalValue) errors3 (isLoading st).

(** The keystroke is rejected when one of the two real-time checks returns
    before [setFormData]. *)
Definition rejected (name : field) (value : string) : bool :=
  let rawValue := parseIndianNumber (guard (sanitize value)) in
  (field_eqb name monthly_income || field_eqb name monthly_expenses)
  && parses rawValue && gtb (parseFloat rawValue) bound.

(** *** [resetForm] *)

Definition resetForm (st : state) : state :=
  State empty_form ∅ (isLoading st).

(** *** [handleSubmit] *)

Definition numericData (d : form_data) : numeric_data :=
  NumericData
    (parseFloat (parseIndianNumber (fd_monthly_income d)))
    (parseFloat (parseIndianNumber (fd_monthly_expenses d)))
    (parseFloat (parseIndianNumber (fd_loan_emi d)))
    (parseFloat (parseIndianNumber (fd_savings d)))
    (parseFloat (parseIndianNumber (fd_investments d))).

Definition numeric_value (n : numeric_data) : value :=
  VObj [("monthly_income", VNum (nd_monthly_income n));
        ("monthly_expenses", VNum (nd_monthly_expenses n));
        ("loan_emi", VNum (nd_loan_emi n));
        ("savings", VNum (nd_savings n));
        ("investments", VNum (nd_investments n))].

Definition predict_url := "http://localhost:5000/predict".

(** [handleSubmit], given what the scoring endpoint answers to a request:
    the state once the handler has settled, and the effects it issued. *)
Definition handleSubmit (net : numeric_data -> fetch_result) (st : state)
  : state * list effect :=
  let '(newErrors, valid) := validateForm (formData st) in
  if negb valid then
    (State (formData st) newErrors (isLoading st), [PreventDefault])
  else
    let data := numericData (formData st) in
    let request := Fetch "POST" predict_url (Some data) in
    match net data with
    | Response true (Some result) =>
        let payload :=
          VObj [("prediction", result); ("formData", numeric_value data)] in
        (State empty_form ∅ false,
         [PreventDefault; request; Navigate "/dashboard" payload])
    | _ =>
        (State (formData st) newErrors false,
         [PreventDefault; request; ConsoleError "Error:"; Alert msg_alert])
    end.

(** *** The submit control *)

(** Truthiness of the [disabled] attribute of the submit button. *)
Definition submit_disabled (st : state) : bool :=
  isLoading st
  || (gtb (income (formData st)) (Fin 0)
      && strict_neqb (balance (formData st)) (Fin 0))
  || has_error (errors st) monthly_income
  || has_error (errors st) monthly_expenses.

(** *** The form as a transition system *)

Inductive event : Type :=
  | Change (name : field) (value : string)
  | ClearAll
  | Submit (net : numeric_data -> fetch_result).

Definition step (st : state) (ev : event) : state :=
  match ev with
  | Change name value => handleChange st name value
  | ClearAll => resetForm st
  | Submit net => fst (handleSubmit net st)
  end.

(** The state after a sequence of events on a freshly mounted form. *)
Definition run (evs : list event) : state := fold_left step evs initial.

End InputForm.

(** ** The results view *)

Module Dashboard.

Open Scope string_scope.
Open Scope Z_scope.

Definition history_url := "http://localhost:5000/history".

(** [const { prediction, formData } = location.state || {}]. *)
Definition prediction (location_state : value) : value :=
  get_prop "prediction" (or_else location_state (VObj [])).

(** Effects of the render pass. *)
Definition render_effects (location_state : value) : list effect :=
  if negb (truthy (prediction location_state))
  then [Navigate "/" VUndefined]
  else [].

(** Effects of the mount effect, run after the render pass. *)
Definition mount_effects (location_state : value) : list effect :=
  ScrollTo 0 0 ::
  (if negb (truthy (prediction location_state))
   then [Navigate "/" VUndefined]
   else [Fetch "GET" history_url None]).

(** [formData], the other half of the destructured payload. *)
Definition formData (location_state : value) : value :=
  get_prop "formData" (or_else location_state (VObj [])).

(** Past the guard on [prediction] the render pass can throw, and a render
    that throws is never committed: [formData.monthly_expenses] on a missing
    [formData], [financial_score.toFixed(0)] on anything but a number, and
    a plain object rendered as the child [{risk_category}].  The charting
    and animation components are taken not to throw. *)
Definition render_throws (location_state : value) : bool :=
  let prediction := prediction location_state in
  let formData := formData location_state in
  let financial_score := get_prop "financial_score" prediction in
  let risk_category := get_prop "risk_category" prediction in
  (match formData with VUndefined | VNull => true | _ => false end)
  || (match financial_score with VNum _ => false | _ => true end)
  || (match risk_category with VObj _ => true | _ => false end).

(** Everything the view issues when it is mounted with [location.state]:
    the effects of the render pass, then those of the mount effect, unless
    the render pass throws and the view is never mounted. *)
Definition mount (location_state : value) : list effect :=
  if truthy (prediction location_state) && render_throws location_state
  then []
  else (render_effects location_state ++ mount_effects location_state)%list.

(** A string handed to the formatter is read by the formatter itself;
    every other value is first converted to a number. *)
Definition formatIndianRupee (value : JsValue.value) : string :=
  if negb (truthy value) then ""
  else
    match value with
    | VStr s => Intl.format_string s
    | _ => Intl.format (to_number value)
    end.

End Dashboard.

(** * Properties *)

Import InputForm.

Open Scope string_scope.
Open Scope Z_scope.

(** ** Arithmetic of the doubles *)

Section NumberFacts.

Lemma rne_div_exact (m d : Z) : 0 < d -> rne_div (m * d) d = m.
Proof.
  intros Hd. unfold rne_div.
  rewrite Z.mod_mul, Z.div_mul by lia.
  destruct (2 * 0 <? d) eqn:E; [reflexivity | apply Z.ltb_ge in E; lia].
Qed.

Lemma rne_div_nonneg (p d : Z) : 0 <= p -> 0 < d -> 0 <= rne_div p d.
Proof.
  intros Hp Hd. unfold rne_div.
  assert (0 <= p / d) by (apply Z.div_pos; lia).
  repeat case_match; lia.
Qed.

Lemma round_mag_nonneg (p d k : Z) :
  0 <= p -> 0 < d -> round_mag p d = Some k -> 0 <= k.
Proof.
  intros Hp Hd. unfold round_mag.
  case_match; [discriminate |]. intros [= <-].
  apply Z.mul_nonneg_nonneg; [| apply Z.pow_nonneg; lia].
  apply rne_div_nonneg; [lia |].
  apply Z.mul_pos_pos; [lia |]. apply Z.pow_pos_nonneg; lia.
Qed.

(** Rounding never produces [NaN]. *)
Lemma round_ratio_not_nan (p d : Z) : isNaN (round_ratio p d) = false.
Proof. unfold round_ratio. repeat case_match; reflexivity. Qed.

(** A non-positive rational rounds to a non-positive double. *)
Lemma round_ratio_nonpos (p d : Z) :
  p <= 0 -> 0 < d -> gtb (round_ratio p d) (Fin 0) = false.
Proof.
  intros Hp Hd. unfold round_ratio.
  destruct (round_mag (Z.abs p) d) as [k|] eqn:E.
  - apply round_mag_nonneg in E; [| lia | lia].
    cbn. apply Z.ltb_ge.
    destruct (Z.sgn_spec p) as [[? ->]|[[? ->]|[? ->]]]; lia.
  - destruct (p <? 0) eqn:E'; [reflexivity |].
    apply Z.ltb_ge in E'. assert (p = 0) as -> by lia.
    exfalso. revert E. change (Z.abs 0) with 0. unfold round_mag.
    rewrite Z.div_0_l by lia. change (Z.log2 0 - 52) with (-52).
    rewrite Z.max_l, Z.pow_0_r, !Z.mul_1_r by lia.
    replace (rne_div 0 d) with (rne_div (0 * d) d) by (f_equal; lia).
    rewrite rne_div_exact by lia. discriminate.
Qed.

(** Integers below [2^53] are doubles. *)
Lemma of_Z_exact (n : Z) : 0 <= n < 2 ^ 53 -> of_Z n = Fin (n * scale).
Proof.
  intros [H0 H53].
  destruct (Z.eq_dec n 0) as [-> | Hn]; [reflexivity |].
  assert (Hlog : 0 <= Z.log2 n <= 52).
  { split; [apply Z.log2_nonneg |].
    assert (Z.log2 n < 53); [| lia].
    apply Z.log2_lt_pow2; lia. }
  unfold of_Z, round_ratio, round_mag, scale.
  assert (Hp : 0 < n * 2 ^ 1074) by (apply Z.mul_pos_pos; [lia | reflexivity]).
  rewrite Z.abs_eq, Z.div_1_r, Z.mul_1_l by lia.
  rewrite Z.log2_mul_pow2 by lia.
  rewrite Z.max_r by lia.
  set (sh := 1074 + Z.log2 n - 52).
  assert (Hsplit : n * 2 ^ 1074 = n * 2 ^ (52 - Z.log2 n) * 2 ^ sh).
  { rewrite <- Z.mul_assoc, <- Z.pow_add_r by (unfold sh; lia).
    do 2 f_equal. unfold sh. lia. }
  assert (Hr : rne_div (n * 2 ^ 1074) (2 ^ sh) * 2 ^ sh = n * 2 ^ 1074).
  { rewrite Hsplit at 1.
    rewrite rne_div_exact by (apply Z.pow_pos_nonneg; unfold sh; lia).
    by rewrite <- Hsplit. }
  rewrite Hr.
  assert (Hlt : n * 2 ^ 1074 < overflow_threshold).
  { unfold overflow_threshold.
    replace (2 ^ 2098) with (2 ^ 1024 * 2 ^ 1074) by (rewrite <- Z.pow_add_r; [reflexivity | lia | lia]).
    apply Z.mul_lt_mono_pos_r; [reflexivity |].
    eapply Z.lt_trans; [exact H53 | reflexivity]. }
  destruct (overflow_threshold <=? n * 2 ^ 1074) eqn:E.
  - apply Z.leb_le in E. lia.
  - rewrite Z.sgn_pos by lia. f_equal. lia.
Qed.

Lemma of_decimal_0 (m : Z) : of_decimal m 0 = of_Z m.
Proof. unfold of_decimal, of_Z. cbn [Z.leb Z.compare]. by rewrite Z.pow_0_r, Z.mul_1_r. Qed.

Lemma isNaN_neg (x : number) : isNaN (neg x) = isNaN x.
Proof. by destruct x. Qed.

Lemma isNaN_abs (x : number) : isNaN (abs x) = isNaN x.
Proof. by destruct x. Qed.

Lemma isNaN_add_fin_r (x : number) (b : Z) : isNaN (add x (Fin b)) = isNaN x.
Proof. destruct x; cbn; try reflexivity. apply round_ratio_not_nan. Qed.

Lemma isNaN_add_fin_l (a : Z) (y : number) : isNaN (add (Fin a) y) = isNaN y.
Proof. destruct y; cbn; try reflexivity. apply round_ratio_not_nan. Qed.

(** On numbers that are not [NaN], [<=] is the negation of [>]. *)
Lemma leb_negb_gtb (x y : number) :
  isNaN x = false -> isNaN y = false -> leb x y = negb (gtb x y).
Proof.
  destruct x, y; cbn; try congruence; intros _ _.
  rewrite Z.leb_antisym. reflexivity.
Qed.

End NumberFacts.

(** ** Decimal digits: printing, grouping, reading back *)

Section DigitFacts.

Definition in_digit_range (d : Z) : Prop := 0 <= d < 10.

Lemma digit_char_cases (d : Z) (P : Z -> Prop) :
  in_digit_range d ->
  P 0 -> P 1 -> P 2 -> P 3 -> P 4 -> P 5 -> P 6 -> P 7 -> P 8 -> P 9 -> P d.
Proof.
  unfold in_digit_range. intros H.
  assert (d = 0 \/ d = 1 \/ d = 2 \/ d = 3 \/ d = 4 \/ d = 5 \/ d = 6
          \/ d = 7 \/ d = 8 \/ d = 9) as Hd by lia.
  intuition (subst; assumption).
Qed.

Lemma is_digit_digit_char (d : Z) :
  in_digit_range d -> is_digit (Intl.digit_char d) = true.
Proof. intros H. pattern d. by apply digit_char_cases. Qed.

Lemma digit_value_digit_char (d : Z) :
  in_digit_range d -> digit_value (Intl.digit_char d) = d.
Proof. intros H. pattern d. by apply digit_char_cases. Qed.

Lemma digit_char_not_comma (d : Z) :
  in_digit_range d -> class_matches commas (Intl.digit_char d) = false.
Proof. intros H. pattern d. by apply digit_char_cases. Qed.

Lemma le_digits_range (fuel : nat) (n : Z) :
  0 <= n -> Forall in_digit_range (Intl.le_digits fuel n).
Proof.
  revert n. induction fuel as [|f IH]; intros n Hn; cbn [Intl.le_digits].
  - constructor.
  - constructor.
    + unfold in_digit_range. apply Z.mod_pos_bound. lia.
    + destruct (n <? 10); [constructor |].
      apply IH. apply Z.div_pos; lia.
Qed.

(** The digits denote the number they were taken from. *)
Lemma le_digits_value (fuel : nat) (n : Z) :
  0 <= n < 2 ^ Z.of_nat fuel ->
  fold_right (fun d a => 10 * a + d) 0 (Intl.le_digits fuel n) = n.
Proof.
  revert n. induction fuel as [|f IH]; intros n [H0 Hn].
  - cbn in *. lia.
  - cbn [Intl.le_digits fold_right].
    destruct (n <? 10) eqn:E.
    + apply Z.ltb_lt in E. cbn. rewrite Z.mod_small; lia.
    + apply Z.ltb_ge in E. rewrite IH.
      * pose proof (Z.div_mod n 10). lia.
      * split; [apply Z.div_pos; lia |].
        rewrite Nat2Z.inj_succ, Z.pow_succ_r in Hn by lia.
        apply Z.div_lt_upper_bound; lia.
Qed.

Lemma digits_value_rev (l : list Z) :
  digits_value (rev l) = fold_right (fun d a => 10 * a + d) 0 l.
Proof.
  unfold digits_value.
  rewrite <- (rev_involutive l) at 2.
  symmetry. apply (fold_left_rev_right (fun d a => 10 * a + d)).
Qed.

Lemma enough_fuel (n : Z) : 0 <= n -> n < 2 ^ Z.of_nat (S (Z.to_nat (Z.log2 n))).
Proof.
  intros Hn. rewrite Nat2Z.inj_succ, Z2Nat.id by apply Z.log2_nonneg.
  destruct (Z.eq_dec n 0) as [-> | ?]; [reflexivity |].
  apply Z.log2_spec. lia.
Qed.

(** Digits of [n], most significant first, as the formatter prints them
    before grouping. *)
Definition be_digits (n : Z) : list Z :=
  rev (Intl.le_digits (S (Z.to_nat (Z.log2 n))) n).

Definition decimal_string (n : Z) : string :=
  string_of_list_ascii (map Intl.digit_char (be_digits n)).

Lemma be_digits_range (n : Z) : 0 <= n -> Forall in_digit_range (be_digits n).
Proof. intros Hn. apply Forall_rev. by apply le_digits_range. Qed.

Lemma be_digits_value (n : Z) : 0 <= n -> digits_value (be_digits n) = n.
Proof.
  intros Hn. unfold be_digits. rewrite digits_value_rev.
  apply le_digits_value. split; [done | by apply enough_fuel].
Qed.

Lemma be_digits_nonempty (n : Z) : be_digits n <> [].
Proof.
  unfold be_digits. cbn [Intl.le_digits].
  intros H. apply (f_equal (@List.length Z)) in H.
  rewrite length_rev in H. cbn in H. lia.
Qed.

Lemma span_digits_all (ds : list Z) :
  Forall in_digit_range ds ->
  span_digits (string_of_list_ascii (map Intl.digit_char ds)) = (ds, "").
Proof.
  induction 1 as [|d ds Hd _ IH]; [reflexivity |].
  cbn [map string_of_list_ascii span_digits].
  rewrite is_digit_digit_char, IH, digit_value_digit_char by done.
  reflexivity.
Qed.

End DigitFacts.

(** ** Grouping separators are exactly what [parseIndianNumber] removes *)

Section GroupingFacts.

Definition keeps (c : ascii) : bool := negb (class_matches commas c).

Lemma replace_all_empty_list (cls : char_class) (l : list ascii) :
  replace_all_empty cls (string_of_list_ascii l)
  = string_of_list_ascii (List.filter (fun c => negb (class_matches cls c)) l).
Proof.
  induction l as [|c l IH]; [reflexivity |].
  cbn [string_of_list_ascii replace_all_empty List.filter].
  destruct (class_matches cls c); cbn [negb string_of_list_ascii]; by rewrite IH.
Qed.

Lemma filter_keeps_id (l : list ascii) :
  Forall (fun c => class_matches commas c = false) l -> List.filter keeps l = l.
Proof.
  induction 1 as [|c l Hc _ IH]; [reflexivity |].
  cbn [List.filter]. unfold keeps at 1. by rewrite Hc, IH.
Qed.

Lemma group_pairs_step (a b c : ascii) (rest : list ascii) :
  Intl.group_pairs (a :: b :: c :: rest)
  = a :: b :: ","%char :: Intl.group_pairs (c :: rest).
Proof. reflexivity. Qed.

Lemma filter_group_pairs (l : list ascii) :
  List.filter keeps (Intl.group_pairs l) = List.filter keeps l.
Proof.
  remember (List.length l) as n eqn:Hn.
  revert l Hn. induction n as [n IH] using lt_wf_ind. intros l Hn.
  destruct l as [|a [|b [|c rest]]]; try reflexivity.
  rewrite group_pairs_step.
  change (a :: b :: ","%char :: Intl.group_pairs (c :: rest))
    with ([a; b] ++ [","%char] ++ Intl.group_pairs (c :: rest))%list.
  rewrite !List.filter_app.
  rewrite (IH (List.length (c :: rest))); [| subst n; cbn; lia | reflexivity].
  change (List.filter keeps [","%char]) with (@nil ascii).
  by rewrite app_nil_l, <- List.filter_app.
Qed.

Lemma filter_group_indian (l : list ascii) :
  List.filter keeps (Intl.group_indian l) = List.filter keeps l.
Proof.
  destruct l as [|a [|b [|c [|e rest]]]]; try reflexivity.
  unfold Intl.group_indian.
  change (a :: b :: c :: ","%char :: Intl.group_pairs (e :: rest))
    with ([a; b; c] ++ [","%char] ++ Intl.group_pairs (e :: rest))%list.
  rewrite !List.filter_app, filter_group_pairs.
  change (List.filter keeps [","%char]) with (@nil ascii).
  by rewrite app_nil_l, <- List.filter_app.
Qed.

(** Stripping the separators of a formatted integer leaves its digits. *)
Lemma parseIndianNumber_format_integer (n : Z) :
  0 <= n -> parseIndianNumber (Intl.format_integer n) = decimal_string n.
Proof.
  intros Hn. unfold parseIndianNumber, Intl.format_integer, decimal_string.
  rewrite replace_all_empty_list. f_equal.
  change (fun c => negb (class_matches commas c)) with keeps.
  rewrite List.filter_rev, filter_group_indian, filter_keeps_id.
  - unfold Intl.le_digit_chars, be_digits. by rewrite map_rev.
  - unfold Intl.le_digit_chars. apply Forall_map.
    eapply Forall_impl; [by apply le_digits_range |].
    intros d Hd. by apply digit_char_not_comma.
Qed.

End GroupingFacts.

(** ** Reading back what the formatter prints *)

Section ReadBack.

Lemma prefix_Infinity_digit (d : Z) (s : string) :
  in_digit_range d -> String.prefix "Infinity" (String (Intl.digit_char d) s) = false.
Proof. intros H. pattern d. by apply digit_char_cases. Qed.

Lemma trim_start_digit (d : Z) (s : string) :
  in_digit_range d ->
  trim_start (String (Intl.digit_char d) s) = String (Intl.digit_char d) s.
Proof.
  intros H. pattern d.
  apply digit_char_cases; [done | ..]; by destruct s as [|b [|c s3]].
Qed.

Lemma scan_unsigned_digits (ds : list Z) :
  ds <> [] -> Forall in_digit_range ds ->
  scan_unsigned (string_of_list_ascii (map Intl.digit_char ds))
  = (LitDecimal (digits_value ds) 0, "").
Proof.
  intros Hne Hds. destruct ds as [|d ds]; [done |].
  unfold scan_unsigned.
  cbn [map string_of_list_ascii].
  rewrite prefix_Infinity_digit by (by inversion Hds).
  change (String (Intl.digit_char d) (string_of_list_ascii (map Intl.digit_char ds)))
    with (string_of_list_ascii (map Intl.digit_char (d :: ds))).
  rewrite span_digits_all by done.
  cbn. by rewrite app_nil_r.
Qed.

Lemma scan_signed_digits (ds : list Z) :
  ds <> [] -> Forall in_digit_range ds ->
  scan_signed (string_of_list_ascii (map Intl.digit_char ds))
  = (Some (of_Z (digits_value ds)), "").
Proof.
  intros Hne Hds. unfold scan_signed.
  assert (Hhead :
    match string_of_list_ascii (map Intl.digit_char ds) with
    | String "-" t => (true, t)
    | String "+" t => (false, t)
    | _ => (false, string_of_list_ascii (map Intl.digit_char ds))
    end = (false, string_of_list_ascii (map Intl.digit_char ds))).
  { destruct ds as [|d ds]; [done |]. cbn [map string_of_list_ascii].
    inversion Hds as [|? ? Hd _]; subst. pattern d. by apply digit_char_cases. }
  rewrite Hhead, scan_unsigned_digits by done.
  by rewrite of_decimal_0.
Qed.

Lemma scan_signed_minus_digits (ds : list Z) :
  ds <> [] -> Forall in_digit_range ds ->
  scan_signed (String "-" (string_of_list_ascii (map Intl.digit_char ds)))
  = (Some (of_Z (- digits_value ds)), "").
Proof.
  intros Hne Hds. unfold scan_signed.
  rewrite scan_unsigned_digits by done.
  by rewrite of_decimal_0.
Qed.

Lemma parseFloat_decimal_string (n : Z) :
  0 <= n -> parseFloat (decimal_string n) = of_Z n.
Proof.
  intros Hn. unfold parseFloat, decimal_string.
  pose proof (be_digits_nonempty n) as Hne.
  pose proof (be_digits_range n Hn) as Hds.
  assert (Htrim : trim_start (string_of_list_ascii (map Intl.digit_char (be_digits n)))
                  = string_of_list_ascii (map Intl.digit_char (be_digits n))).
  { destruct (be_digits n) as [|d ds]; [done |].
    apply trim_start_digit. by inversion Hds. }
  rewrite Htrim, scan_signed_digits by done.
  cbn [fst]. by rewrite be_digits_value.
Qed.

Lemma parseFloat_minus_decimal_string (n : Z) :
  0 <= n -> parseFloat (String "-" (decimal_string n)) = of_Z (- n).
Proof.
  intros Hn. unfold parseFloat, decimal_string.
  pose proof (be_digits_nonempty n) as Hne.
  pose proof (be_digits_range n Hn) as Hds.
  assert (Htrim : forall s, trim_start (String "-" s) = String "-" s).
  { by intros [|b [|c s3]]. }
  rewrite Htrim, scan_signed_minus_digits by done.
  cbn [fst]. by rewrite be_digits_value.
Qed.

Lemma round_half_expand_nonneg (k : Z) : 0 <= Intl.round_half_expand k.
Proof.
  unfold Intl.round_half_expand.
  assert (0 < scale) by reflexivity.
  apply Z.div_pos; lia.
Qed.

Lemma shortest_digits_nonneg (p : nat) (k n : Z) :
  0 <= n -> 0 <= Intl.shortest_digits p k n.
Proof.
  intros Hn. induction p as [|p IH]; cbn [Intl.shortest_digits].
  all: assert (Hu : 0 < 10 ^ Z.of_nat ltac:(first [exact (S p) | exact O]))
         by (apply Z.pow_pos_nonneg; lia).
  all: match type of Hu with 0 < ?u =>
         assert (Hlo : 0 <= n / u * u)
           by (apply Z.mul_nonneg_nonneg; [apply Z.div_pos |]; lia)
       end.
  all: repeat match goal with
         | |- context [match ?b with _ => _ end] =>
             lazymatch b with
             | Intl.reads_back _ _ => destruct b
             | Z.ltb _ _ => destruct b
             | Z.even _ => destruct b
             end
         end; try lia; try exact IH.
Qed.

Lemma printed_integer_nonneg (k : Z) : 0 <= Intl.printed_integer k.
Proof.
  pose proof (round_half_expand_nonneg k) as Hn.
  unfold Intl.printed_integer. cbn zeta.
  destruct (Intl.round_half_expand k <? 2 ^ 53); [exact Hn |].
  by apply shortest_digits_nonneg.
Qed.

(** Below [2^53] the printed integer is the rounded value itself. *)
Lemma printed_integer_small (k : Z) :
  Intl.round_half_expand k < 2 ^ 53 ->
  Intl.printed_integer k = Intl.round_half_expand k.
Proof.
  intros H. unfold Intl.printed_integer. cbn zeta.
  by rewrite (proj2 (Z.ltb_lt _ _) H).
Qed.

(** The double nearest to [10^23] lies below it; its printed form is the
    shorter [1] followed by zeros, not the digits of its exact value, which
    a string argument keeps. *)
Example format_shortest_digits :
  parseFloat "1e23" = parseFloat "99999999999999991611392"
  /\ Intl.format (parseFloat "1e23") = "1,00,00,00,00,00,00,00,00,00,00,000"
  /\ Intl.format_string "99999999999999991611392"
     = "99,99,99,99,99,99,99,99,16,11,392".
Proof. repeat split; vm_compute; reflexivity. Qed.

(** The value, as an integer, that [Intl.format] prints for [Fin k]. *)
Definition rounded_integer (k : Z) : Z :=
  if k <? 0 then - Intl.printed_integer k else Intl.printed_integer k.

(** Format, strip the separators, parse: the double nearest to the printed
    integer. *)
Lemma parse_strip_format (k : Z) :
  parseFloat (parseIndianNumber (Intl.format (Fin k))) = of_Z (rounded_integer k).
Proof.
  pose proof (printed_integer_nonneg k) as Hn.
  unfold rounded_integer. cbn [Intl.format].
  destruct (k <? 0).
  - change ("-" ++ Intl.format_integer (Intl.printed_integer k))
      with (String "-" (Intl.format_integer (Intl.printed_integer k))).
    unfold parseIndianNumber.
    change (replace_all_empty commas (String "-" ?s))
      with (String "-" (parseIndianNumber s)).
    rewrite parseIndianNumber_format_integer by done.
    by apply parseFloat_minus_decimal_string.
  - change ("" ++ ?s) with s.
    rewrite parseIndianNumber_format_integer by done.
    by apply parseFloat_decimal_string.
Qed.

End ReadBack.

(** ** The per-field checks and the error map *)

Section ValidationFacts.

(** The numeric literals of the source are doubles. *)
Lemma sanity_ceiling_eq : sanity_ceiling = Fin (10000000000 * scale).
Proof. apply of_Z_exact. done. Qed.

Lemma bound_eq : bound = Fin (150000 * scale).
Proof. apply of_Z_exact. done. Qed.

Lemma one_eq : of_Z 1 = Fin (1 * scale).
Proof. apply of_Z_exact. done. Qed.

Lemma parseIndianNumber_nonempty (s : string) :
  parseIndianNumber s <> "" -> or_zero s = s.
Proof. by destruct s. Qed.

Lemma fieldErrors_lookup (d : form_data) (f : field) :
  fieldErrors d !! f = checkField d f.
Proof.
  unfold fieldErrors, numericFields. cbn [fold_left].
  destruct f;
    generalize (checkField d monthly_income) (checkField d monthly_expenses)
               (checkField d loan_emi) (checkField d savings)
               (checkField d investments);
    intros [?|] [?|] [?|] [?|] [?|];
    repeat (rewrite lookup_insert_eq || rewrite lookup_insert_ne by done);
    try reflexivity; apply lookup_empty.
Qed.

Lemma fieldErrors_empty (d : form_data) :
  (forall f, checkField d f = None) -> fieldErrors d = ∅.
Proof.
  intros H. apply map_eq. intros f.
  by rewrite fieldErrors_lookup, H, lookup_empty.
Qed.

(** A field that passes its checks holds a finite, non-negative number. *)
Lemma checkField_None_inv (d : form_data) (f : field) :
  checkField d f = None ->
  parseIndianNumber (get d f) <> ""
  /\ exists k, parseFloat (parseIndianNumber (get d f)) = Fin k /\ 0 <= k.
Proof.
  unfold checkField. rewrite sanity_ceiling_eq.
  destruct (String.eqb_spec (parseIndianNumber (get d f)) ""); [discriminate |].
  destruct (parseFloat (parseIndianNumber (get d f))) as [| | |k];
    cbn [isNaN ltb gtb strict_eqb]; try discriminate.
  - rewrite andb_false_r. discriminate.
  - destruct (k <? 0) eqn:E; [discriminate |].
    apply Z.ltb_ge in E. intros _. split; [assumption |]. by exists k.
Qed.

Lemma sumErrors_nonempty (m : gmap field string) : sumErrors m <> ∅.
Proof. unfold sumErrors. apply insert_non_empty. Qed.

Lemma validateForm_valid_empty (d : form_data) :
  snd (validateForm d) = true -> fst (validateForm d) = ∅.
Proof.
  unfold validateForm. cbn [fst snd]. intros H.
  exact (bool_decide_eq_true_1 _ H).
Qed.

Definition msg_sum (f : field) : string :=
  match f with
  | monthly_income => msg_income_sum
  | _ => msg_total_sum
  end.

Lemma sumErrors_lookup (m : gmap field string) (f : field) :
  sumErrors m !! f = Some (msg_sum f).
Proof. unfold sumErrors. destruct f; by simplify_map_eq. Qed.

(** With five valid fields neither the total nor the balance is [NaN]. *)
Lemma valid_fields_numbers (d : form_data) :
  (forall f, checkField d f = None) ->
  isNaN (calculateBalance d) = false
  /\ income d = parseFloat (parseIndianNumber (fd_monthly_income d)).
Proof.
  intros H.
  destruct (checkField_None_inv d monthly_income (H _)) as (Hi & ki & Ei & _).
  destruct (checkField_None_inv d monthly_expenses (H _)) as (He & ke & Ee & _).
  destruct (checkField_None_inv d loan_emi (H _)) as (Hl & kl & El & _).
  destruct (checkField_None_inv d savings (H _)) as (Hs & ks & Es & _).
  destruct (checkField_None_inv d investments (H _)) as (Hv & kv & Ev & _).
  cbn [get] in *.
  unfold income, calculateBalance, calculateTotalExpenses, sub.
  rewrite !parseIndianNumber_nonempty by done.
  rewrite Ei, Ee, El, Es, Ev. split; [| done].
  rewrite isNaN_add_fin_l, isNaN_neg, !isNaN_add_fin_r. reflexivity.
Qed.

End ValidationFacts.

(** ** C1: the sum check of the full validation pass *)

Section SumCheck.

(** C1.  Take a form in which every field passes its own checks, with
    parsed income above zero and parsed total allocation above zero.  Then
    [validateForm] passes exactly when [|income - totalExpenses| <= 1]; and
    when it fails, each of the five fields carries its sum-mismatch
    message. *)
Theorem validateForm_sum_check (d : form_data) :
  (forall f, checkField d f = None) ->
  gtb (income d) (Fin 0) = true ->
  gtb (totalExpenses d) (Fin 0) = true ->
  (snd (validateForm d) = true
   <-> leb (abs (sub (income d) (totalExpenses d))) (of_Z 1) = true)
  /\ (snd (validateForm d) = false ->
      forall f, fst (validateForm d) !! f = Some (msg_sum f)).
Proof.
  intros Hfields Hinc Htot.
  destruct (valid_fields_numbers d Hfields) as [Hnan _].
  assert (Hle : leb (abs (calculateBalance d)) (of_Z 1)
                = negb (gtb (abs (calculateBalance d)) (of_Z 1))).
  { apply leb_negb_gtb; [by rewrite isNaN_abs | by rewrite one_eq]. }
  change (sub (income d) (totalExpenses d)) with (calculateBalance d).
  unfold validateForm.
  change (parseFloat (parseIndianNumber (or_zero (fd_monthly_income d))))
    with (income d).
  change (calculateTotalExpenses d) with (totalExpenses d).
  rewrite Hinc, Htot, (fieldErrors_empty d Hfields). cbn [andb].
  rewrite Hle.
  destruct (gtb (abs (calculateBalance d)) (of_Z 1)); cbn [fst snd negb].
  - rewrite bool_decide_eq_false_2 by apply sumErrors_nonempty.
    split; [done |]. intros _ f. apply sumErrors_lookup.
  - rewrite bool_decide_eq_true_2 by done. done.
Qed.

Definition balanced_form : form_data :=
  FormData "1,00,000" "50,000" "20,000" "20,000" "10,000".

Definition unbalanced_form : form_data :=
  FormData "1,00,000" "50,000" "20,000" "20,000" "5,000".

Lemma validateForm_sum_check_witness :
  (snd (validateForm balanced_form) = true
   <-> leb (abs (sub (income balanced_form) (totalExpenses balanced_form)))
           (of_Z 1) = true)
  /\ (snd (validateForm unbalanced_form) = false ->
      forall f, fst (validateForm unbalanced_form) !! f = Some (msg_sum f)).
Proof.
  split.
  - apply (validateForm_sum_check balanced_form).
    + intros []; vm_compute; reflexivity.
    + vm_compute; reflexivity.
    + vm_compute; reflexivity.
  - apply (validateForm_sum_check unbalanced_form).
    + intros []; vm_compute; reflexivity.
    + vm_compute; reflexivity.
    + vm_compute; reflexivity.
Defined.

(** The two scenarios of the specification, evaluated. *)
Example scenario_balanced :
  snd (validateForm balanced_form) = true
  /\ submit_disabled (State balanced_form ∅ false) = false.
Proof. vm_compute. done. Qed.

Example scenario_unbalanced :
  snd (validateForm unbalanced_form) = false
  /\ submit_disabled (State unbalanced_form ∅ false) = true
  /\ forall f, fst (validateForm unbalanced_form) !! f = Some (msg_sum f).
Proof. split; [| split]; [by vm_compute.. |]. intros []; by vm_compute. Qed.

End SumCheck.

(** ** C5: order of the per-field checks *)

Section FieldChecks.




Definition empty_savings_form : form_data :=
  FormData "100" "50" "50" ",," "0".







End FieldChecks.

(** ** C9: the submit control is stricter than the validation pass *)

Section SubmitControl.

Lemma has_error_lookup (errs : gmap field string) (f : field) (msg : string) :
  errs !! f = Some msg -> msg <> "" -> has_error errs f = true.
Proof.
  intros H Hmsg. unfold has_error. rewrite H.
  by destruct (String.eqb_spec msg "").
Qed.

(** C9.  While the parsed income is above zero, the submit button is
    disabled as soon as the balance is not exactly zero, or an error (in
    particular a bound error) is recorded on income or on expenses.  So a
    form whose fields are all valid and whose balance lies within the
    tolerance without being zero passes [validateForm] and still cannot be
    submitted through the button. *)
Theorem submit_disabled_stricter (st : state) :
  gtb (income (formData st)) (Fin 0) = true ->
  (strict_neqb (balance (formData st)) (Fin 0) = true -> submit_disabled st = true)
  /\ (errors st !! monthly_income = Some msg_income_bound -> submit_disabled st = true)
  /\ (errors st !! monthly_expenses = Some msg_expenses_bound -> submit_disabled st = true)
  /\ ((forall f, checkField (formData st) f = None) ->
      ltb (Fin 0) (abs (balance (formData st))) = true ->
      leb (abs (balance (formData st))) (of_Z 1) = true ->
      snd (validateForm (formData st)) = true /\ submit_disabled st = true).
Proof.
  intros Hinc. unfold submit_disabled. rewrite Hinc. cbn [andb].
  split; [intros ->; by rewrite orb_true_r |].
  split.
  { intros H. rewrite (has_error_lookup _ _ _ H) by done.
    by rewrite orb_true_r. }
  split.
  { intros H. rewrite (has_error_lookup _ _ _ H) by done.
    by rewrite orb_true_r. }
  intros Hfields Hpos Hle.
  assert (Hneq : strict_neqb (balance (formData st)) (Fin 0) = true).
  { clear Hle. unfold strict_neqb.
    destruct (balance (formData st)) as [| | |k]; try reflexivity.
    cbn [abs ltb strict_eqb] in *.
    apply Z.ltb_lt in Hpos. apply negb_true_iff, Z.eqb_neq. lia. }
  rewrite Hneq, orb_true_r. split; [| done].
  destruct (valid_fields_numbers _ Hfields) as [Hnan _].
  rewrite leb_negb_gtb in Hle; [| by rewrite isNaN_abs | by rewrite one_eq].
  apply negb_true_iff in Hle.
  unfold validateForm. unfold balance in Hle. rewrite Hle.
  rewrite (fieldErrors_empty _ Hfields).
  repeat case_match; by apply bool_decide_eq_true_2.
Qed.

Definition off_by_one_form : form_data := FormData "100" "99" "0" "0" "0".

Lemma submit_disabled_stricter_witness :
  snd (validateForm off_by_one_form) = true
  /\ submit_disabled (State off_by_one_form ∅ false) = true.
Proof.
  apply (submit_disabled_stricter (State off_by_one_form ∅ false)).
  - vm_compute; reflexivity.
  - intros []; vm_compute; reflexivity.
  - vm_compute; reflexivity.
  - vm_compute; reflexivity.
Defined.

End SubmitControl.

(** ** C10: the currency formatters print nothing for zero *)

Section Formatters.

(** C10.  Both formatters return the empty string on every falsy argument,
    the number zero among them, although the locale formatter itself prints
    zero as ["0"]. *)
Theorem formatIndianRupee_falsy (v : value) :
  truthy v = false ->
  InputForm.formatIndianRupee v = VStr ""
  /\ Dashboard.formatIndianRupee v = ""
  /\ Intl.format (of_Z 0) = "0".
Proof.
  intros H. unfold InputForm.formatIndianRupee, Dashboard.formatIndianRupee.
  rewrite H. by vm_compute.
Qed.

Lemma formatIndianRupee_falsy_witness :
  InputForm.formatIndianRupee (VNum (of_Z 0)) = VStr ""
  /\ Dashboard.formatIndianRupee (VNum (of_Z 0)) = ""
  /\ Intl.format (of_Z 0) = "0".
Proof. apply (formatIndianRupee_falsy (VNum (of_Z 0))). reflexivity. Defined.

(** The typed instance used by [handleChange] agrees with the formatter. *)
Lemma formatIndianRupee_str_spec (s : string) :
  InputForm.formatIndianRupee (VStr s) = VStr (formatIndianRupee_str s).
Proof.
  unfold InputForm.formatIndianRupee, formatIndianRupee_str. cbn.
  destruct (String.eqb s ""); cbn; [done |].
  by destruct (isNaN (parseFloat s)).
Qed.

End Formatters.

(** ** C8: the history fetch waits for a prediction *)

Section HistoryFetch.

Definition history_fetch : effect := Fetch "GET" Dashboard.history_url None.

(** C8.  Mounting the results view issues a network request only when the
    navigation payload holds a prediction: with a prediction the render
    pass either throws, and nothing is issued, or the history request is the
    last effect, after the check; without a prediction the view redirects to
    the entry form and issues no request.  A missing payload ([null] or
    [undefined]) is such a case. *)
Theorem history_fetch_guarded (location_state : value) :
  (truthy (Dashboard.prediction location_state) = true ->
   Dashboard.mount location_state
   = if Dashboard.render_throws location_state then []
     else [ScrollTo 0 0; history_fetch])
  /\ (truthy (Dashboard.prediction location_state) = false ->
      existsb is_fetch (Dashboard.mount location_state) = false
      /\ In (Navigate "/" VUndefined) (Dashboard.mount location_state))
  /\ ((exists e, In e (Dashboard.mount location_state) /\ is_fetch e = true) ->
      truthy (Dashboard.prediction location_state) = true)
  /\ (truthy location_state = false ->
      truthy (Dashboard.prediction location_state) = false).
Proof.
  unfold Dashboard.mount, Dashboard.render_effects, Dashboard.mount_effects.
  destruct (truthy (Dashboard.prediction location_state)) eqn:E;
    cbn [andb negb app].
  - split; [intros _; by destruct (Dashboard.render_throws location_state) |].
    split; [discriminate |]. split; [reflexivity |].
    intros H. unfold Dashboard.prediction, or_else in E. rewrite H in E.
    discriminate E.
  - split; [discriminate |].
    split; [intros _; split; [reflexivity | by left] |].
    split; [| reflexivity].
    intros (e & [<- | [<- | [<- | []]]] & He); discriminate.
Qed.

Definition scored_payload : value :=
  VObj [("prediction",
         VObj [("financial_score", VNum (of_Z 72));
               ("risk_category", VStr "Moderate")]);
        ("formData", VObj [])].

Lemma history_fetch_guarded_witness :
  Dashboard.mount scored_payload = [ScrollTo 0 0; history_fetch]
  /\ existsb is_fetch (Dashboard.mount VNull) = false
  /\ In (Navigate "/" VUndefined) (Dashboard.mount VNull).
Proof.
  destruct (history_fetch_guarded scored_payload) as (H1 & _).
  destruct (history_fetch_guarded VNull) as (_ & H2 & _).
  split; [exact (H1 eq_refl) | apply H2; reflexivity].
Defined.

(** A prediction alone is not enough for the request: without the form
    record, or with a score that is not a number, the render pass throws
    and the view issues nothing. *)
Example mount_throws :
  Dashboard.mount (VObj [("prediction", VObj [])]) = []
  /\ Dashboard.mount (VObj [("prediction", VNum (of_Z 5)); ("formData", VObj [])])
     = [].
Proof. split; reflexivity. Qed.

End HistoryFetch.

(** ** C7: the character filter and the decimal-point guard *)

Section Normalizer.

(** The words of the specification: the characters that survive the
    filter, the number of decimal points, and a text without its last
    character. *)
Definition allowed (c : ascii) : bool :=
  is_digit c || Ascii.eqb c "." || Ascii.eqb c ",".

Fixpoint keep_allowed (s : string) : string :=
  match s with
  | "" => ""
  | String c s' => if allowed c then String c (keep_allowed s') else keep_allowed s'
  end.

Fixpoint count_points (s : string) : nat :=
  match s with
  | "" => O
  | String c s' => if Ascii.eqb c "." then S (count_points s') else count_points s'
  end.

Fixpoint drop_last (s : string) : string :=
  match s with
  | "" => ""
  | String c "" => ""
  | String c s' => String c (drop_last s')
  end.

Lemma sanitize_keep_allowed (s : string) : sanitize s = keep_allowed s.
Proof.
  unfold sanitize. induction s as [|c s IH]; [reflexivity |].
  cbn [replace_all_empty keep_allowed]. rewrite IH.
  assert (H : class_matches not_numeric c = negb (allowed c)).
  { unfold class_matches, allowed. cbn. by rewrite orb_false_r, orb_assoc. }
  rewrite H. by destruct (allowed c).
Qed.

Lemma split_length (s : string) :
  List.length (split "." s) = S (count_points s).
Proof.
  induction s as [|c s IH]; [reflexivity |].
  cbn [split count_points].
  destruct (Ascii.eqb c "."); cbn [List.length]; [by rewrite IH |].
  destruct (split "." s); cbn in *; done.
Qed.

Lemma decimalCount_count_points (s : string) :
  decimalCount s = Z.of_nat (count_points s).
Proof. unfold decimalCount. rewrite split_length. lia. Qed.

Lemma substring_drop_last (s : string) :
  substring 0 (String.length s - 1) s = drop_last s.
Proof.
  induction s as [|c s IH]; [reflexivity |].
  destruct s as [|c' s]; [reflexivity |].
  replace (String.length (String c (String c' s)) - 1)%nat
    with (S (String.length (String c' s) - 1)) by (cbn [String.length]; lia).
  change (drop_last (String c (String c' s)))
    with (String c (drop_last (String c' s))).
  rewrite <- IH. reflexivity.
Qed.

Lemma slice_drop_last (s : string) : slice s 0 (-1) = drop_last s.
Proof.
  unfold slice, slice_index. cbn [Z.ltb Z.compare].
  rewrite Z.min_l by lia.
  rewrite <- substring_drop_last. f_equal. lia.
Qed.

Lemma guard_spec (s : string) :
  guard s = if (1 <? count_points s)%nat then drop_last s else s.
Proof.
  unfold guard. rewrite decimalCount_count_points, slice_drop_last.
  destruct (1 <? count_points s)%nat eqn:E.
  - apply Nat.ltb_lt in E. rewrite (proj2 (Z.ltb_lt _ _)); [done | lia].
  - apply Nat.ltb_ge in E. rewrite (proj2 (Z.ltb_ge _ _)); [done | lia].
Qed.

Lemma keep_allowed_app (s t : string) :
  keep_allowed (s ++ t) = keep_allowed s ++ keep_allowed t.
Proof.
  induction s as [|c s IH]; [reflexivity |].
  change (String c s ++ t) with (String c (s ++ t)).
  cbn [keep_allowed]. rewrite IH. by destruct (allowed c).
Qed.

Lemma count_points_app (s t : string) :
  count_points (s ++ t) = (count_points s + count_points t)%nat.
Proof.
  induction s as [|c s IH]; [reflexivity |].
  change (String c s ++ t) with (String c (s ++ t)).
  cbn [count_points]. rewrite IH. by destruct (Ascii.eqb c ".").
Qed.

Lemma drop_last_app (s : string) (c : ascii) :
  drop_last (s ++ String c "") = s.
Proof.
  induction s as [|a s IH]; [reflexivity |].
  destruct s as [|a' s]; [reflexivity |].
  change (drop_last (String a (String a' s) ++ String c ""))
    with (String a (drop_last (String a' s ++ String c ""))).
  by rewrite IH.
Qed.

(** The candidate value of a keystroke that appends the character [c] to
    the text [s]. *)
Lemma guard_sanitize_app (s : string) (c : ascii) :
  guard (sanitize (s ++ String c ""))
  = if allowed c then
      if (1 <? count_points (sanitize s) + (if Ascii.eqb c "." then 1 else 0))%nat
      then sanitize s
      else sanitize s ++ String c ""
    else guard (sanitize s).
Proof.
  rewrite !sanitize_keep_allowed, keep_allowed_app. cbn [keep_allowed].
  destruct (allowed c).
  - rewrite guard_spec, count_points_app, drop_last_app. cbn [count_points].
    by destruct (Ascii.eqb c ".").
  - replace (keep_allowed s ++ "") with (keep_allowed s); [reflexivity |].
    induction (keep_allowed s) as [|a t IH]; [reflexivity |].
    change (String a t ++ "") with (String a (t ++ "")). by rewrite <- IH.
Qed.

(** A text pasted with three decimal points, then two digits typed after
    it. *)
Definition pasted_points : list event :=
  [Change loan_emi "..."; Change loan_emi "..5"; Change loan_emi "..7"].

(** C7 as stated fails in its parenthesis: the correction drops the last
    character, which need not be a decimal point, so repeated keystrokes do
    not converge to at most one decimal point.  A pasted text with three
    points is stored with two; every digit then typed after them is itself
    the character dropped, and the two points stay. *)
Lemma guard_keeps_two_points :
  get (formData (run [Change loan_emi "..."])) loan_emi = ".."
  /\ get (formData (run pasted_points)) loan_emi = ".."
  /\ (count_points (get (formData (run pasted_points)) loan_emi) > 1)%nat.
Proof.
  assert (H1 : get (formData (run [Change loan_emi "..."])) loan_emi = "..")
    by (vm_compute; reflexivity).
  assert (H2 : get (formData (run pasted_points)) loan_emi = "..")
    by (vm_compute; reflexivity).
  split; [exact H1 |]. split; [exact H2 |].
  rewrite H2. cbn. lia.
Qed.

(** C7, amended.  The normalizer keeps exactly the digits, decimal points and
    commas of the raw text, in order.  If more than one decimal point is
    left, the candidate is the filtered text without its last character,
    otherwise the filtered text.  This is a correction of one step: a
    keystroke that appends one character to a text whose filtered form has
    at most one decimal point gives a candidate with at most one; but once
    the filtered text holds two or more, a keystroke that appends a digit, a
    point or a comma gives back the filtered text with all its points, so
    that further keystrokes of this kind never reach a single decimal
    point. *)
Theorem normalizer_steps (value : string) :
  let filtered := sanitize value in
  filtered = keep_allowed value
  /\ guard filtered
     = (if (1 <? count_points filtered)%nat then drop_last filtered else filtered)
  /\ (forall c : ascii,
        (count_points filtered <= 1)%nat ->
        (count_points (guard (sanitize (value ++ String c ""))) <= 1)%nat)
  /\ (forall c : ascii,
        (1 < count_points filtered)%nat -> allowed c = true ->
        guard (sanitize (value ++ String c "")) = filtered).
Proof.
  cbn zeta. split; [apply sanitize_keep_allowed |].
  split; [apply guard_spec |].
  split.
  - intros c Hle. rewrite guard_sanitize_app.
    destruct (allowed c).
    + destruct (1 <? _)%nat eqn:E; [exact Hle |].
      apply Nat.ltb_ge in E. rewrite sanitize_keep_allowed in *.
      rewrite count_points_app. cbn [count_points].
      destruct (Ascii.eqb c "."); lia.
    + rewrite guard_spec.
      destruct (1 <? count_points (sanitize value))%nat eqn:E; [| exact Hle].
      apply Nat.ltb_lt in E. lia.
  - intros c Hlt Hc. rewrite guard_sanitize_app, Hc.
    destruct (1 <? _)%nat eqn:E; [reflexivity |].
    apply Nat.ltb_ge in E. lia.
Qed.

Lemma normalizer_steps_witness :
  (count_points (guard (sanitize "1.")) <= 1)%nat
  /\ guard (sanitize "..5") = "..".
Proof.
  destruct (normalizer_steps "1") as (_ & _ & H1 & _).
  destruct (normalizer_steps "..") as (_ & _ & _ & H2).
  split.
  - apply (H1 "."%char). vm_compute. lia.
  - apply (H2 "5"%char); [vm_compute; lia | reflexivity].
Defined.

Example normalizer_single_step :
  sanitize "Rs 1.2.3.4/-" = "1.2.3.4"
  /\ guard "1.2.3.4" = "1.2.3."
  /\ guard "1.2.3." = "1.2.3"
  /\ guard ".1.5" = ".1."
  /\ guard "1.2" = "1.2".
Proof. by vm_compute. Qed.

End Normalizer.

(** ** C3: the submission orchestrator *)

Section Submission.








Definition failing_net : numeric_data -> fetch_result :=
  fun _ => Response false None.

Definition scoring_net : numeric_data -> fetch_result :=
  fun _ => Response true
    (Some (VObj [("financial_score", VNum (of_Z 72));
                 ("risk_category", VStr "Moderate")])).


End Submission.

(** ** What a keystroke stores *)

Section Keystroke.

Ltac field_cases :=
  repeat match goal with
    | |- context [field_eqb ?a ?b] =>
        let v := eval vm_compute in (field_eqb a b) in
        change (field_eqb a b) with v
    | H : context [field_eqb ?a ?b] |- _ =>
        let v := eval vm_compute in (field_eqb a b) in
        change (field_eqb a b) with v in H
    end.

Lemma get_set (d : form_data) (f : field) (v : string) : get (set d f v) f = v.
Proof. by destruct f. Qed.

Lemma get_set_ne (d : form_data) (f g : field) (v : string) :
  f <> g -> get (set d f v) g = get d g.
Proof. by destruct f, g. Qed.

(** The text a keystroke puts in the field when it is not rejected. *)
Definition display (value : string) : string :=
  let finalValue := guard (sanitize value) in
  let rawValue := parseIndianNumber finalValue in
  if parses rawValue then formatIndianRupee_str rawValue else finalValue.

Definition msg_bound (name : field) : string :=
  match name with
  | monthly_income => msg_income_bound
  | _ => msg_expenses_bound
  end.

Lemma handleChange_accepted (st : state) (name : field) (value : string) :
  rejected name value = false ->
  formData (handleChange st name value) = set (formData st) name (display value).
Proof.
  unfold rejected, handleChange, display. intros Hrej.
  destruct name; field_cases; cbn [andb orb negb] in *;
    rewrite ?Hrej; reflexivity.
Qed.

Lemma handleChange_rejected (st : state) (name : field) (value : string) :
  rejected name value = true ->
  handleChange st name value
  = State (formData st) (<[name := msg_bound name]> (errors st)) (isLoading st).
Proof.
  unfold rejected, handleChange. intros Hrej.
  destruct name; field_cases; cbn [andb orb negb] in *;
    try discriminate; rewrite Hrej; reflexivity.
Qed.

Lemma parses_format (rawValue : string) :
  parses rawValue = true ->
  formatIndianRupee_str rawValue = Intl.format (parseFloat rawValue).
Proof.
  unfold parses, formatIndianRupee_str. intros H.
  apply andb_true_iff in H as [H1 H2].
  apply negb_true_iff in H1, H2. by rewrite H1, H2.
Qed.

End Keystroke.

(** ** C6: the display string after an accepted keystroke *)

Section Display.

Definition is_grouping_char (c : ascii) : bool :=
  is_digit c || Ascii.eqb c "," || Ascii.eqb c "-".

Lemma group_pairs_Forall (P : ascii -> Prop) (l : list ascii) :
  P ","%char -> Forall P l -> Forall P (Intl.group_pairs l).
Proof.
  intros Hc. remember (List.length l) as n eqn:Hn.
  revert l Hn. induction n as [n IH] using lt_wf_ind. intros l Hn Hl.
  destruct l as [|a [|b [|c rest]]]; try assumption.
  rewrite group_pairs_step.
  inversion Hl as [|? ? Ha Hl1]; subst. inversion Hl1 as [|? ? Hb Hl2]; subst.
  repeat constructor; try assumption.
  apply (IH (List.length (c :: rest))); [cbn; lia | reflexivity | assumption].
Qed.

Lemma group_indian_Forall (P : ascii -> Prop) (l : list ascii) :
  P ","%char -> Forall P l -> Forall P (Intl.group_indian l).
Proof.
  intros Hc Hl. destruct l as [|a [|b [|c [|e rest]]]]; try assumption.
  unfold Intl.group_indian.
  inversion Hl as [|? ? Ha Hl1]; subst. inversion Hl1 as [|? ? Hb Hl2]; subst.
  inversion Hl2 as [|? ? Hc' Hl3]; subst.
  repeat constructor; try assumption. by apply group_pairs_Forall.
Qed.

Lemma format_integer_chars (n : Z) :
  0 <= n ->
  Forall (fun c => is_grouping_char c = true)
         (list_ascii_of_string (Intl.format_integer n)).
Proof.
  intros Hn. unfold Intl.format_integer.
  rewrite list_ascii_of_string_of_list_ascii.
  apply Forall_rev, group_indian_Forall; [reflexivity |].
  unfold Intl.le_digit_chars. apply Forall_map.
  eapply Forall_impl; [by apply le_digits_range |].
  intros d Hd. cbn beta. unfold is_grouping_char.
  by rewrite is_digit_digit_char.
Qed.

(** A finite number is printed as an optional sign, digits and grouping
    separators: no decimal point, no fractional digits. *)
Lemma format_finite_chars (k : Z) :
  Forall (fun c => is_grouping_char c = true)
         (list_ascii_of_string (Intl.format (Fin k))).
Proof.
  cbn [Intl.format].
  pose proof (format_integer_chars _ (printed_integer_nonneg k)) as H.
  destruct (k <? 0); [| exact H].
  change ("-" ++ ?s) with (String "-" s). cbn [list_ascii_of_string].
  by constructor.
Qed.

(** A text of more than three hundred digits: its value overflows the
    doubles. *)
Definition overflowing_input : string :=
  String "1" (string_of_list_ascii (repeat "0"%char 309)).

(** C6 as stated fails where the text parses to a number that is not
    finite: typed into the loan field the keystroke is accepted, the parsed
    number is infinite, and the field does not hold the filtered text but
    the infinity sign. *)
Lemma handleChange_stores_infinity_sign :
  let filtered := guard (sanitize overflowing_input) in
  rejected loan_emi overflowing_input = false
  /\ filtered = overflowing_input
  /\ isFinite (parseFloat (parseIndianNumber filtered)) = false
  /\ get (formData (handleChange initial loan_emi overflowing_input)) loan_emi = "∞"
  /\ get (formData (handleChange initial loan_emi overflowing_input)) loan_emi
     <> filtered.
Proof.
  cbn zeta.
  assert (H1 : guard (sanitize overflowing_input) = overflowing_input)
    by (vm_compute; reflexivity).
  assert (H2 : get (formData (handleChange initial loan_emi overflowing_input)) loan_emi
               = "∞") by (vm_compute; reflexivity).
  rewrite H1, H2.
  split; [reflexivity |]. split; [reflexivity |].
  split; [vm_compute; reflexivity |]. split; [reflexivity |].
  discriminate.
Qed.

(** C6, amended.  After an accepted keystroke the field holds: the locale
    rendering of the parsed number when the separator-stripped text is not
    empty and parses to a number, finite or not; the filtered text
    otherwise.  The rendering of a finite number is made of digits,
    grouping separators and at most a sign; it denotes the number rounded
    to an integer (from [2^53] up, the shortest decimal that reads back as
    the number). *)
Theorem handleChange_display (st : state) (name : field) (value : string) :
  let filtered := guard (sanitize value) in
  let rawValue := parseIndianNumber filtered in
  let stored := get (formData (handleChange st name value)) name in
  rejected name value = false ->
  (rawValue <> "" -> isNaN (parseFloat rawValue) = false ->
   stored = Intl.format (parseFloat rawValue))
  /\ (forall k, rawValue <> "" -> parseFloat rawValue = Fin k ->
      Forall (fun c => is_grouping_char c = true) (list_ascii_of_string stored)
      /\ parseFloat (parseIndianNumber stored) = of_Z (rounded_integer k))
  /\ (rawValue = "" \/ isNaN (parseFloat rawValue) = true -> stored = filtered).
Proof.
  cbn zeta. intros Hrej.
  rewrite (handleChange_accepted _ _ _ Hrej), get_set. unfold display.
  assert (Hparses : forall raw, raw <> "" -> isNaN (parseFloat raw) = false ->
                                parses raw = true).
  { intros raw H1 H2. unfold parses. rewrite H2.
    by destruct (String.eqb_spec raw ""). }
  split; [| split].
  - intros H1 H2. rewrite (Hparses _ H1 H2). by apply parses_format, Hparses.
  - intros k H1 H2.
    assert (Hp : parses (parseIndianNumber (guard (sanitize value))) = true).
    { apply Hparses; [assumption | by rewrite H2]. }
    rewrite Hp, (parses_format _ Hp), H2.
    split; [apply format_finite_chars | apply parse_strip_format].
  - intros [H | H]; unfold parses; rewrite H; [reflexivity |].
    by rewrite andb_false_r.
Qed.

Lemma handleChange_display_witness :
  get (formData (handleChange initial loan_emi "12345.6")) loan_emi = "12,346"
  /\ get (formData (handleChange initial monthly_income "1.5.")) monthly_income = "2"
  /\ get (formData (handleChange initial savings ".")) savings = ".".
Proof.
  destruct (handleChange_display initial loan_emi "12345.6") as (H1 & _);
    [vm_compute; reflexivity |].
  destruct (handleChange_display initial monthly_income "1.5.") as (H2 & _);
    [vm_compute; reflexivity |].
  destruct (handleChange_display initial savings ".") as (_ & _ & H3);
    [vm_compute; reflexivity |].
  split; [| split].
  - eapply eq_trans; [apply H1 | vm_compute; reflexivity].
    + intros H; vm_compute in H; discriminate.
    + vm_compute; reflexivity.
  - eapply eq_trans; [apply H2 | vm_compute; reflexivity].
    + intros H; vm_compute in H; discriminate.
    + vm_compute; reflexivity.
  - eapply eq_trans; [apply H3 | vm_compute; reflexivity].
    right. vm_compute; reflexivity.
Defined.

End Display.

(** ** C4: format, strip, parse *)

Section RoundTrip.

Lemma scale_pos : 0 < scale.
Proof. reflexivity. Qed.

Lemma of_Z_exact_signed (n : Z) : Z.abs n < 2 ^ 53 -> of_Z n = Fin (n * scale).
Proof.
  intros Hn. destruct (Z.le_gt_cases 0 n) as [H0 | H0].
  - apply of_Z_exact. lia.
  - assert (Hpos : of_Z (- n) = Fin (- n * scale)) by (apply of_Z_exact; lia).
    pose proof scale_pos as Hs.
    unfold of_Z, round_ratio in *.
    replace (Z.abs (n * scale)) with (Z.abs (- n * scale)) by lia.
    destruct (round_mag (Z.abs (- n * scale)) 1) as [k0|].
    + injection Hpos as Hpos. f_equal.
      rewrite Z.sgn_pos in Hpos by nia. rewrite Z.sgn_neg by nia. lia.
    + destruct (- n * scale <? 0); discriminate.
Qed.

Lemma round_half_expand_bound (k c : Z) :
  Z.abs k <= c * scale -> Intl.round_half_expand k <= c.
Proof.
  intros Hk. unfold Intl.round_half_expand.
  pose proof scale_pos as Hs.
  assert ((2 * Z.abs k + scale) / (2 * scale) < c + 1); [| lia].
  apply Z.div_lt_upper_bound; nia.
Qed.

Lemma round_half_expand_integer (n : Z) :
  Intl.round_half_expand (n * scale) = Z.abs n.
Proof.
  unfold Intl.round_half_expand. pose proof scale_pos as Hs.
  symmetry. apply (Z.div_unique _ _ _ scale); [lia |].
  rewrite Z.abs_mul, (Z.abs_eq scale) by lia. lia.
Qed.

Lemma rounded_integer_integer (n : Z) :
  Z.abs n < 2 ^ 53 -> rounded_integer (n * scale) = n.
Proof.
  intros Hn. unfold rounded_integer.
  rewrite printed_integer_small; rewrite round_half_expand_integer;
    [| exact Hn].
  pose proof scale_pos as Hs.
  destruct (n * scale <? 0) eqn:E.
  - apply Z.ltb_lt in E. nia.
  - apply Z.ltb_ge in E. nia.
Qed.

Lemma rounded_integer_bound (k c : Z) :
  c < 2 ^ 53 -> Z.abs k <= c * scale -> Z.abs (rounded_integer k) <= c.
Proof.
  intros Hc Hk. unfold rounded_integer.
  pose proof (round_half_expand_bound k c Hk).
  pose proof (round_half_expand_nonneg k).
  rewrite printed_integer_small by lia.
  destruct (k <? 0); lia.
Qed.

(** C4 as stated fails on a raw string with a fractional part: the value is
    below the ceiling, yet the formatter prints no fractional digits and the
    stripped text parses to another number. *)
Lemma round_trip_loses_fraction :
  ltb (parseFloat "1234.5") sanity_ceiling = true
  /\ formatIndianRupee_str "1234.5" = "1,235"
  /\ parseIndianNumber (formatIndianRupee_str "1234.5") = "1235"
  /\ parseFloat (parseIndianNumber (formatIndianRupee_str "1234.5"))
     <> parseFloat "1234.5".
Proof.
  split; [vm_compute; reflexivity |].
  split; [vm_compute; reflexivity |].
  split; [vm_compute; reflexivity |].
  intros H. vm_compute in H. discriminate.
Qed.

(** C4, amended.  For a raw numeric string whose value lies below the
    sanity ceiling, formatting it, stripping the grouping separators and
    parsing yields the value rounded to the nearest integer, ties away from
    zero; so the original value comes back exactly when it is an integer. *)
Theorem format_round_trip (rawValue : string) (k : Z) :
  rawValue <> "" ->
  parseFloat rawValue = Fin k ->
  Z.abs k < 10000000000 * scale ->
  parseFloat (parseIndianNumber (formatIndianRupee_str rawValue))
  = Fin (rounded_integer k * scale)
  /\ ((exists n, k = n * scale) ->
      parseFloat (parseIndianNumber (formatIndianRupee_str rawValue))
      = parseFloat rawValue).
Proof.
  intros Hne Hk Hlt.
  assert (Hfmt : formatIndianRupee_str rawValue = Intl.format (Fin k)).
  { rewrite <- Hk. apply parses_format. unfold parses. rewrite Hk.
    by destruct (String.eqb_spec rawValue ""). }
  assert (Hrt : parseFloat (parseIndianNumber (formatIndianRupee_str rawValue))
                = Fin (rounded_integer k * scale)).
  { rewrite Hfmt, parse_strip_format. apply of_Z_exact_signed.
    pose proof (rounded_integer_bound k 10000000000 ltac:(lia) ltac:(lia)). lia. }
  split; [exact Hrt |].
  intros [n ->]. rewrite Hrt, Hk, rounded_integer_integer; [reflexivity |].
  pose proof scale_pos as Hs. rewrite Z.abs_mul, (Z.abs_eq scale) in Hlt by lia.
  nia.
Qed.

Lemma format_round_trip_witness :
  parseFloat (parseIndianNumber (formatIndianRupee_str "150000")) = parseFloat "150000".
Proof.
  destruct (format_round_trip "150000" (150000 * scale)) as [_ H].
  - discriminate.
  - vm_compute; reflexivity.
  - reflexivity.
  - apply H. by exists 150000.
Defined.

End RoundTrip.

(** ** C2: income and expenses stay within the bound *)

Section Bound.

(** The number a field holds, as [validateForm] and [handleSubmit] read it. *)
Definition stored_value (d : form_data) (f : field) : number :=
  parseFloat (parseIndianNumber (get d f)).

Definition bounded_field (f : field) : Prop :=
  f = monthly_income \/ f = monthly_expenses.

Definition within_bound (d : form_data) : Prop :=
  forall f, bounded_field f -> gtb (stored_value d f) bound = false.

Lemma gtb_nonpos_bound (x : number) :
  gtb x (Fin 0) = false -> gtb x bound = false.
Proof.
  rewrite bound_eq. pose proof scale_pos as Hs.
  destruct x as [| | |k]; cbn [gtb ltb]; try done.
  intros H. apply Z.ltb_ge in H. apply Z.ltb_ge. lia.
Qed.

Lemma parseIndianNumber_idempotent (s : string) :
  parseIndianNumber (parseIndianNumber s) = parseIndianNumber s.
Proof.
  unfold parseIndianNumber. induction s as [|c s IH]; [reflexivity |].
  cbn [replace_all_empty].
  destruct (class_matches commas c) eqn:E; [exact IH |].
  cbn [replace_all_empty]. by rewrite E, IH.
Qed.

(** What an accepted keystroke stores in a bounded field does not exceed the
    bound. *)
Lemma display_within_bound (value : string) :
  let rawValue := parseIndianNumber (guard (sanitize value)) in
  parses rawValue && gtb (parseFloat rawValue) bound = false ->
  gtb (parseFloat (parseIndianNumber (display value))) bound = false.
Proof.
  cbn zeta. unfold display.
  set (rawValue := parseIndianNumber (guard (sanitize value))).
  destruct (parses rawValue) eqn:Hp; cbn [andb].
  - rewrite (parses_format _ Hp).
    destruct (parseFloat rawValue) as [| | |k] eqn:Hk.
    + intros _. by vm_compute.
    + rewrite bound_eq. discriminate.
    + intros _. by vm_compute.
    + intros Hle. rewrite parse_strip_format.
      rewrite bound_eq in Hle. cbn [gtb ltb] in Hle. apply Z.ltb_ge in Hle.
      pose proof scale_pos as Hs.
      unfold rounded_integer. destruct (k <? 0) eqn:Hneg.
      * apply gtb_nonpos_bound. unfold of_Z. apply round_ratio_nonpos; [| lia].
        pose proof (printed_integer_nonneg k). nia.
      * apply Z.ltb_ge in Hneg.
        pose proof (round_half_expand_nonneg k) as H0.
        pose proof (round_half_expand_bound k 150000 ltac:(lia)) as H1.
        rewrite printed_integer_small by lia.
        rewrite of_Z_exact by lia. rewrite bound_eq. cbn [gtb ltb].
        apply Z.ltb_ge. nia.
  - intros _. fold rawValue.
    unfold parses in Hp. apply andb_false_iff in Hp as [Hp | Hp].
    + apply negb_false_iff, String.eqb_eq in Hp. rewrite Hp. by vm_compute.
    + apply negb_false_iff in Hp.
      destruct (parseFloat rawValue); try discriminate. by vm_compute.
Qed.

Lemma handleChange_within_bound (st : state) (name : field) (value : string) :
  within_bound (formData st) ->
  within_bound (formData (handleChange st name value)).
Proof.
  intros Hinv f Hf. unfold stored_value.
  destruct (rejected name value) eqn:Hrej.
  - rewrite handleChange_rejected by done. by apply Hinv.
  - rewrite handleChange_accepted by done.
    destruct (decide (name = f)) as [-> | Hne].
    + rewrite get_set. apply display_within_bound.
      unfold rejected in Hrej.
      assert (Hb : field_eqb f monthly_income || field_eqb f monthly_expenses = true)
        by (by destruct Hf as [-> | ->]).
      rewrite Hb in Hrej. exact Hrej.
    + rewrite get_set_ne by done. by apply Hinv.
Qed.

Lemma empty_form_within_bound : within_bound empty_form.
Proof. intros f [-> | ->]; by vm_compute. Qed.

Lemma step_within_bound (st : state) (ev : event) :
  within_bound (formData st) -> within_bound (formData (step st ev)).
Proof.
  intros Hinv. destruct ev as [name value | | net]; cbn [step].
  - by apply handleChange_within_bound.
  - apply empty_form_within_bound.
  - unfold handleSubmit.
    destruct (validateForm (formData st)) as [newErrors valid].
    destruct valid; cbn [negb fst]; [| exact Hinv].
    destruct (net (numericData (formData st))) as [|[|] [result|]];
      cbn [fst formData]; (exact Hinv || apply empty_form_within_bound).
Qed.

Lemma run_within_bound (evs : list event) : within_bound (formData (run evs)).
Proof.
  unfold run.
  assert (H : forall st, within_bound (formData st) ->
                         within_bound (formData (fold_left step evs st))).
  { induction evs as [|ev evs IH]; intros st Hst; [exact Hst |].
    cbn [fold_left]. apply IH. by apply step_within_bound. }
  apply H, empty_form_within_bound.
Qed.

(** C2.  On the income or expenses field, a keystroke whose sanitized raw
    text parses to a number above 150,000 leaves the form data as they were
    and records the bound error on that field; one whose number is within
    the bound clears an error recorded on the field.  Whatever the sequence
    of events, the numbers held by the income and expenses fields never
    exceed 150,000. *)
Theorem bound_enforced :
  (forall st name value,
     let rawValue := parseIndianNumber (guard (sanitize value)) in
     bounded_field name ->
     rawValue <> "" -> isNaN (parseFloat rawValue) = false ->
     (gtb (parseFloat rawValue) bound = true ->
      formData (handleChange st name value) = formData st
      /\ errors (handleChange st name value)
         = <[name := msg_bound name]> (errors st))
     /\ (gtb (parseFloat rawValue) bound = false ->
         has_error (errors st) name = true ->
         errors (handleChange st name value) !! name = Some ""
         /\ has_error (errors (handleChange st name value)) name = false))
  /\ (forall evs f,
        bounded_field f ->
        gtb (stored_value (formData (run evs)) f) bound = false).
Proof.
  split; [| intros evs f Hf; by apply run_within_bound].
  intros st name value rawValue Hname Hne Hnan.
  assert (Hp : parses rawValue = true).
  { unfold parses. rewrite Hnan. by destruct (String.eqb_spec rawValue ""). }
  split.
  - intros Hgt.
    assert (Hrej : rejected name value = true).
    { unfold rejected. fold rawValue. rewrite Hp, Hgt.
      by destruct Hname as [-> | ->]. }
    rewrite (handleChange_rejected _ _ _ Hrej). split; reflexivity.
  - intros Hle Herr.
    assert (Herrs : errors (handleChange st name value) = <[name := ""]> (errors st)).
    { unfold handleChange. fold rawValue. rewrite Hp, Hle.
      destruct Hname as [-> | ->];
        change (field_eqb monthly_income monthly_income) with true;
        change (field_eqb monthly_expenses monthly_expenses) with true;
        change (field_eqb monthly_income monthly_expenses) with false;
        change (field_eqb monthly_expenses monthly_income) with false;
        cbn [andb negb]; rewrite ?andb_false_r, Herr; reflexivity. }
    rewrite Herrs. unfold has_error. rewrite lookup_insert_eq.
    split; reflexivity.
Qed.

Definition frozen_income_state : state :=
  State (FormData "20,000" "" "" "" "") ∅ false.

Lemma bound_enforced_witness :
  formData (handleChange frozen_income_state monthly_income "20,0000")
  = formData frozen_income_state
  /\ errors (handleChange frozen_income_state monthly_income "20,0000")
     = <[monthly_income := msg_income_bound]> ∅
  /\ gtb (stored_value
            (formData (run [Change monthly_income "2"; Change monthly_income "20";
                            Change monthly_income "200"; Change monthly_income "2,000";
                            Change monthly_income "20,000";
                            Change monthly_income "20,0000"]))
            monthly_income) bound = false.
Proof.
  destruct bound_enforced as [Hkey Hrun].
  destruct (Hkey frozen_income_state monthly_income "20,0000") as [[H1 H2] _].
  - by left.
  - intros H; vm_compute in H; discriminate.
  - vm_compute; reflexivity.
  - vm_compute; reflexivity.
  - split; [exact H1 |]. split; [exact H2 |]. apply Hrun. by left.
Defined.

Example scenario_frozen_income :
  formData (run [Change monthly_income "2"; Change monthly_income "20";
                 Change monthly_income "200"; Change monthly_income "2,000";
                 Change monthly_income "20,000"; Change monthly_income "20,0000"])
  = formData frozen_income_state.
Proof. vm_compute. reflexivity. Qed.

End Bound.

(** * Further properties of the entry form *)

(** ** What the stored text can be *)

Section StoredText.

Fixpoint all_chars (p : ascii -> bool) (s : string) : bool :=
  match s with
  | "" => true
  | String c s' => p c && all_chars p s'
  end.

Definition digit_or_point (c : ascii) : bool :=
  is_digit c || Ascii.eqb c ".".

Definition digit_or_comma (c : ascii) : bool :=
  is_digit c || Ascii.eqb c ",".

Lemma all_chars_impl (p q : ascii -> bool) (s : string) :
  (forall c, p c = true -> q c = true) ->
  all_chars p s = true -> all_chars q s = true.
Proof.
  intros Hpq. induction s as [|c s IH]; [reflexivity |].
  cbn [all_chars]. intros H. apply andb_true_iff in H as [H1 H2].
  by rewrite (Hpq _ H1), IH.
Qed.

Lemma all_chars_keep_allowed (s : string) :
  all_chars allowed (keep_allowed s) = true.
Proof.
  induction s as [|c s IH]; [reflexivity |].
  cbn [keep_allowed]. destruct (allowed c) eqn:E; [| exact IH].
  cbn [all_chars]. by rewrite E, IH.
Qed.

Lemma all_chars_drop_last (p : ascii -> bool) (s : string) :
  all_chars p s = true -> all_chars p (drop_last s) = true.
Proof.
  induction s as [|c s IH]; [reflexivity |].
  destruct s as [|c' s]; [reflexivity |].
  change (drop_last (String c (String c' s)))
    with (String c (drop_last (String c' s))).
  intros H. change (p c && all_chars p (String c' s) = true) in H.
  apply andb_true_iff in H as [H1 H2].
  change (p c && all_chars p (drop_last (String c' s)) = true).
  by rewrite H1, IH.
Qed.

(** The candidate value of a keystroke holds digits, points and commas
    only. *)
Lemma all_chars_guard_sanitize (value : string) :
  all_chars allowed (guard (sanitize value)) = true.
Proof.
  rewrite guard_spec, sanitize_keep_allowed.
  destruct (1 <? count_points (keep_allowed value))%nat.
  - apply all_chars_drop_last, all_chars_keep_allowed.
  - apply all_chars_keep_allowed.
Qed.

Lemma parseIndianNumber_allowed (s : string) :
  all_chars allowed s = true ->
  all_chars digit_or_point (parseIndianNumber s) = true.
Proof.
  unfold parseIndianNumber. induction s as [|c s IH]; [reflexivity |].
  cbn [all_chars replace_all_empty]. intros H.
  apply andb_true_iff in H as [H1 H2].
  assert (Hc : class_matches commas c = Ascii.eqb c ",").
  { unfold class_matches. cbn. by rewrite orb_false_r. }
  rewrite Hc. destruct (Ascii.eqb c ",") eqn:E; [by apply IH |].
  cbn [all_chars]. rewrite IH by done.
  unfold allowed in H1. rewrite E, orb_false_r in H1.
  unfold digit_or_point. by rewrite H1.
Qed.

Lemma parseIndianNumber_no_comma (s : string) :
  all_chars digit_or_comma s = true ->
  all_chars is_digit (parseIndianNumber s) = true.
Proof.
  unfold parseIndianNumber. induction s as [|c s IH]; [reflexivity |].
  cbn [all_chars replace_all_empty]. intros H.
  apply andb_true_iff in H as [H1 H2].
  assert (Hc : class_matches commas c = Ascii.eqb c ",").
  { unfold class_matches. cbn. by rewrite orb_false_r. }
  rewrite Hc. destruct (Ascii.eqb c ",") eqn:E; [by apply IH |].
  cbn [all_chars]. rewrite IH by done.
  unfold digit_or_comma in H1. rewrite E, orb_false_r in H1. by rewrite H1.
Qed.

End StoredText.

(** * The remaining code of the two views *)

(** ** Multiplication and division of doubles *)

Module JsArith.

(** Sign of a number that is not [NaN]: [-1], [0] or [1]. *)
Definition sign (x : number) : Z :=
  match x with
  | NaN => 0
  | PosInf => 1
  | NegInf => -1
  | Fin k => Z.sgn k
  end.

Definition signed_infinity (s : Z) : number :=
  if s =? 0 then NaN else if 0 <? s then PosInf else NegInf.

(** [x * y]. *)
Definition mul (x y : number) : number :=
  match x, y with
  | NaN, _ | _, NaN => NaN
  | Fin a, Fin b => round_ratio (a * b) scale
  | _, _ => signed_infinity (sign x * sign y)
  end.

(** [x / y].  The zero of the model stands for the positive zero; the
    divisors of the results view are read with [parseFloat] from printed
    numbers, which never yields the negative one. *)
Definition div (x y : number) : number :=
  match x, y with
  | NaN, _ | _, NaN => NaN
  | Fin a, Fin b =>
      if b =? 0 then signed_infinity (Z.sgn a)
      else round_ratio (Z.sgn b * a * scale) (Z.abs b)
  | Fin _, _ => Fin 0
  | _, Fin b => signed_infinity (sign x * (if b <? 0 then -1 else 1))
  | _, _ => NaN
  end.

End JsArith.

Import JsArith.

(** Known quotients and products. *)
Example div_one_third :
  div (of_Z 1) (of_Z 3) = Fin (6004799503160661 * 2 ^ (1074 - 54)).
Proof. vm_compute. reflexivity. Qed.

Example div_not_three :
  div (of_decimal 3 (-1)) (of_decimal 1 (-1))
  = Fin (6755399441055743 * 2 ^ (1074 - 51)).
Proof. vm_compute. reflexivity. Qed.

Example mul_inexact :
  mul (of_decimal 1 (-1)) (of_decimal 2 (-1))
  = Fin (5764607523034236 * 2 ^ (1074 - 58)).
Proof. vm_compute. reflexivity. Qed.

(** ** The rendered part of the entry form *)

Module InputFormView.

Open Scope string_scope.
Open Scope Z_scope.

(** [{income > 0 && (...)}]: the summary section is rendered. *)
Definition summary_visible (st : state) : bool :=
  gtb (income (formData st)) (Fin 0).

(** The caption after the balance amount. *)
Definition balance_caption (balance : number) : string :=
  if strict_eqb balance (Fin 0) then "✓ Balanced"
  else if gtb balance (Fin 0) then "(Under-allocated)"
  else "(Over-allocated)".

(** The three amounts of the summary. *)
Definition summary_amounts (st : state) : list value :=
  [InputForm.formatIndianRupee (VNum (income (formData st)));
   InputForm.formatIndianRupee (VNum (totalExpenses (formData st)));
   InputForm.formatIndianRupee (VNum (abs (balance (formData st))))].

(** [{balance !== 0 && (...)}], inside the summary: the line "Income must
    equal the sum of all allocations". *)
Definition warning_visible (st : state) : bool :=
  summary_visible st && strict_neqb (balance (formData st)) (Fin 0).

(** The red border and the message under a field. *)
Definition field_flagged (st : state) (name : field) : bool :=
  has_error (errors st) name.

(** [disabled] of the "Clear All" button. *)
Definition clear_disabled (st : state) : bool := isLoading st.

End InputFormView.

(** ** The data the results view derives from its payload *)

Module DashboardData.

Open Scope string_scope.
Open Scope Z_scope.

Record chart_item : Type := ChartItem {
  item_name : string;
  item_value : number
}.

(** [parseFloat(formData.x)] on the numeric record the entry form hands
    over. *)
Definition num (n : number) : number := parseFloat_value (VNum n).

Definition pieChartData (formData : numeric_data) : list chart_item :=
  List.filter (fun item => gtb (item_value item) (Fin 0))
    [ChartItem "Essential Expenses" (num (nd_monthly_expenses formData));
     ChartItem "Loan EMI" (num (nd_loan_emi formData));
     ChartItem "Savings & Investments"
       (add (num (nd_savings formData)) (num (nd_investments formData)));
     ChartItem "Disposable Income"
       (sub (num (nd_monthly_income formData))
            (add (add (add (num (nd_monthly_expenses formData))
                           (num (nd_loan_emi formData)))
                      (num (nd_savings formData)))
                 (num (nd_investments formData))))].

Definition barChartData (formData : numeric_data) : list chart_item :=
  [ChartItem "Liabilities" (num (nd_loan_emi formData));
   ChartItem "Assets"
     (add (num (nd_savings formData)) (num (nd_investments formData)))].

Definition rec_expenses :=
  "Optimize expenses by 10-15% to enhance financial stability and improve your health score.".
Definition rec_debt :=
  "Explore debt consolidation strategies to reduce high-interest loan burden and improve cash flow.".
Definition rec_savings :=
  "Target a minimum 20% savings rate from income to build stronger financial security.".
Definition rec_investments :=
  "Consider strategic allocation of savings into investments for better wealth generation.".
Definition rec_excellent :=
  "Excellent financial discipline maintained. Continue current strategies for sustained growth.".

(** [recommendations.push(r)] under a condition. *)
Definition push_if (cond : bool) (r : string) (recommendations : list string)
  : list string :=
  if cond then (recommendations ++ [r])%list else recommendations.

Definition generateRecommendations (formData : numeric_data) : list string :=
  let income := num (nd_monthly_income formData) in
  let expenses := num (nd_monthly_expenses formData) in
  let emi := num (nd_loan_emi formData) in
  let savings := num (nd_savings formData) in
  let investments := num (nd_investments formData) in
  let expenseRatio := div expenses income in
  let debtRatio := div emi income in
  let savingsRate := div (add savings investments) income in
  let recommendations := [] in
  let recommendations :=
    push_if (gtb expenseRatio (of_decimal 6 (-1))) rec_expenses recommendations in
  let recommendations :=
    push_if (gtb debtRatio (of_decimal 3 (-1))) rec_debt recommendations in
  let recommendations :=
    push_if (ltb savingsRate (of_decimal 2 (-1))) rec_savings recommendations in
  let recommendations :=
    push_if (ltb investments (mul savings (of_decimal 5 (-1))))
            rec_investments recommendations in
  let recommendations :=
    push_if (Nat.eqb (List.length recommendations) 0) rec_excellent
            recommendations in
  firstn 3 recommendations.

Definition neutral_color := "text-gray-700 bg-gray-100 border-gray-200".

Definition getRiskColor (category : value) : string :=
  match category with
  | VStr "Good" => "text-green-700 bg-green-100 border-green-200"
  | VStr "Moderate" => "text-yellow-700 bg-yellow-100 border-yellow-200"
  | VStr "Risky" => "text-red-700 bg-red-100 border-red-200"
  | _ => neutral_color
  end.

(** The advisory sentences rendered under the category badge. *)
Definition advisory (risk_category : value) : list string :=
  ((match risk_category with
    | VStr "Good" =>
        ["Exceptional financial health! Maintain current strategies for continued success."]
    | _ => []
    end)
   ++ (match risk_category with
       | VStr "Moderate" =>
           ["Financial optimization opportunities identified. Review recommendations below."]
       | _ => []
       end)
   ++ (match risk_category with
       | VStr "Risky" =>
           ["Immediate financial review recommended. Implement strategic adjustments."]
       | _ => []
       end))%list.

(** What the history request resolves to.  The body is the parsed array;
    [None] when [json()] rejects or the parsed value has no [slice] (null, a
    number, a boolean, a plain object).  A body that is a bare string is not
    modelled. *)
Inductive history_result : Type :=
  | HistoryFailure
  | HistoryResponse (ok : bool) (body : option (list value)).

(** The continuation of [fetchHistory] after the request: the new
    [history] state and the effects. *)
Definition fetchHistory (r : history_result) (history : list value)
  : list value * list effect :=
  match r with
  | HistoryResponse true (Some data) => (firstn 5 data, [])
  | HistoryResponse false _ => (history, [])
  | _ => (history, [ConsoleError "Error fetching history:"])
  end.

End DashboardData.

Import InputFormView DashboardData.
(** ** Sanitized text never parses to a negative number *)

Section NonNegative.

Lemma round_ratio_nonneg (p d : Z) :
  0 <= p -> 0 < d -> ltb (round_ratio p d) (Fin 0) = false.
Proof.
  intros Hp Hd. unfold round_ratio.
  rewrite Z.abs_eq by lia.
  destruct (round_mag p d) as [k|] eqn:E.
  - apply round_mag_nonneg in E; [| lia | lia].
    cbn [ltb]. apply Z.ltb_ge.
    destruct (Z.sgn_spec p) as [[? ->]|[[? ->]|[? ->]]]; lia.
  - destruct (p <? 0) eqn:E'; [apply Z.ltb_lt in E'; lia | reflexivity].
Qed.

Lemma of_decimal_nonneg (m e : Z) :
  0 <= m -> ltb (of_decimal m e) (Fin 0) = false.
Proof.
  intros Hm. unfold of_decimal. pose proof scale_pos as Hs.
  destruct (0 <=? e) eqn:E.
  - apply Z.leb_le in E. apply round_ratio_nonneg; [| lia].
    assert (0 < 10 ^ e) by (apply Z.pow_pos_nonneg; lia). nia.
  - apply Z.leb_gt in E. apply round_ratio_nonneg; [nia |].
    apply Z.pow_pos_nonneg; lia.
Qed.

Lemma of_Z_nonneg (n : Z) : 0 <= n -> ltb (of_Z n) (Fin 0) = false.
Proof.
  intros Hn. unfold of_Z. pose proof scale_pos.
  apply round_ratio_nonneg; [nia | lia].
Qed.

Lemma digit_value_range (c : ascii) :
  is_digit c = true -> in_digit_range (digit_value c).
Proof.
  unfold is_digit, char_between, digit_value, in_digit_range.
  change (N_of_ascii "0") with 48%N. change (N_of_ascii "9") with 57%N.
  intros H. apply andb_true_iff in H as [H1 H2].
  apply N.leb_le in H1, H2. lia.
Qed.

Lemma span_digits_range (s : string) :
  Forall in_digit_range (fst (span_digits s)).
Proof.
  induction s as [|c s IH]; [constructor |].
  cbn [span_digits]. destruct (is_digit c) eqn:E; [| constructor].
  destruct (span_digits s) as [ds rest]. cbn [fst] in *.
  constructor; [by apply digit_value_range | exact IH].
Qed.

Lemma digits_value_nonneg (ds : list Z) :
  Forall in_digit_range ds -> 0 <= digits_value ds.
Proof.
  unfold digits_value. intros H.
  assert (G : forall a, 0 <= a -> 0 <= fold_left (fun a d => 10 * a + d) ds a).
  { induction H as [|d ds Hd _ IH]; intros a Ha; [exact Ha |].
    cbn [fold_left]. apply IH. unfold in_digit_range in Hd. lia. }
  apply G. lia.
Qed.

Lemma scan_unsigned_nonneg (s rest : string) (m e : Z) :
  scan_unsigned s = (LitDecimal m e, rest) -> 0 <= m.
Proof.
  unfold scan_unsigned.
  destruct (String.prefix "Infinity" s); [discriminate |].
  pose proof (span_digits_range s) as Hip.
  destruct (span_digits s) as [ip r1]. cbn [fst] in Hip.
  assert (Hfp : forall t, Forall in_digit_range (fst (span_digits t)))
    by apply span_digits_range.
  assert (Hgen : forall fp r2,
    Forall in_digit_range fp ->
    match ip, fp with
    | [], [] => (LitNone, s)
    | _, _ =>
        let '(e, r3) := scan_exponent r2 in
        (LitDecimal (digits_value (ip ++ fp)%list) (e - Z.of_nat (List.length fp)), r3)
    end = (LitDecimal m e, rest) -> 0 <= m).
  { intros fp r2 Hfp2 H.
    assert (0 <= digits_value (ip ++ fp)%list)
      by (apply digits_value_nonneg, Forall_app; split; assumption).
    destruct (scan_exponent r2) as [e' r3].
    destruct ip, fp; try discriminate; injection H as <- _ _; assumption. }
  destruct r1 as [|c t].
  - apply (Hgen [] ""). constructor.
  - destruct (Ascii.eqb_spec c ".") as [-> | Hc].
    + specialize (Hfp t). destruct (span_digits t) as [fp r2].
      apply Hgen. exact Hfp.
    + intros H. apply (Hgen [] (String c t)); [constructor |].
      revert H. destruct c as [[] [] [] [] [] [] [] []]; try exact id.
      by destruct Hc.
Qed.

Lemma digit_or_point_head (c : ascii) (s : string) :
  digit_or_point c = true ->
  trim_start (String c s) = String c s
  /\ scan_signed (String c s)
     = match scan_unsigned (String c s) with
       | (LitNone, _) => (None, String c s)
       | (LitInfinity, rest) => (Some PosInf, rest)
       | (LitDecimal m e, rest) => (Some (of_decimal m e), rest)
       end.
Proof.
  intros H.
  destruct c as [[] [] [] [] [] [] [] []]; try discriminate H;
    (split; [by destruct s as [|b [|c3 s3]] | reflexivity]).
Qed.

(** A text made of digits and points parses to [NaN] or to a number that is
    not negative. *)
Lemma parseFloat_digits_points (s : string) :
  all_chars digit_or_point s = true -> ltb (parseFloat s) (Fin 0) = false.
Proof.
  destruct s as [|c s]; [reflexivity |].
  cbn [all_chars]. intros H. apply andb_true_iff in H as [Hc _].
  destruct (digit_or_point_head c s Hc) as [Htrim Hscan].
  unfold parseFloat. rewrite Htrim, Hscan.
  destruct (scan_unsigned (String c s)) as [[| |m e] rest] eqn:E; try reflexivity.
  cbn [fst]. apply of_decimal_nonneg. by apply scan_unsigned_nonneg in E.
Qed.

Lemma raw_nonneg (value : string) :
  ltb (parseFloat (parseIndianNumber (guard (sanitize value)))) (Fin 0) = false.
Proof.
  apply parseFloat_digits_points, parseIndianNumber_allowed,
    all_chars_guard_sanitize.
Qed.

End NonNegative.

(** ** Keystrokes: what they touch and what they leave alone *)

Section KeystrokeFrame.

Ltac decide_fields :=
  repeat match goal with
    | |- context [field_eqb ?a ?b] =>
        let v := eval vm_compute in (field_eqb a b) in
        change (field_eqb a b) with v
    | H : context [field_eqb ?a ?b] |- _ =>
        let v := eval vm_compute in (field_eqb a b) in
        change (field_eqb a b) with v in H
    end.

(** The two fields with a real-time bound check. *)
Definition bounded (name : field) : bool :=
  field_eqb name monthly_income || field_eqb name monthly_expenses.

(** The whole state after a keystroke that is not rejected. *)
Lemma handleChange_accepted_state (st : state) (name : field) (value : string) :
  rejected name value = false ->
  handleChange st name value
  = State (set (formData st) name (display value))
          (if has_error (errors st) name
              && (negb (bounded name)
                  || parses (parseIndianNumber (guard (sanitize value))))
           then <[name := ""]> (errors st)
           else errors st)
          (isLoading st).
Proof.
  unfold rejected, handleChange, display, bounded. intros Hrej.
  destruct name; decide_fields; cbn [andb orb negb] in *; rewrite ?Hrej;
    rewrite ?andb_true_r, ?andb_false_r;
    destruct (parses (parseIndianNumber (guard (sanitize value))));
    cbn [andb orb negb]; rewrite ?andb_true_r, ?andb_false_r; reflexivity.
Qed.

(** X1.  A keystroke in one field leaves the text and the error entry of every
    other field, and the loading flag, as they were. *)
Theorem handleChange_frame (st : state) (name g : field) (value : string) :
  g <> name ->
  get (formData (handleChange st name value)) g = get (formData st) g
  /\ errors (handleChange st name value) !! g = errors st !! g
  /\ isLoading (handleChange st name value) = isLoading st.
Proof.
  intros Hg. destruct (rejected name value) eqn:Hrej.
  - rewrite (handleChange_rejected _ _ _ Hrej). cbn [formData errors isLoading].
    split; [reflexivity |]. split; [| reflexivity].
    apply lookup_insert_ne. congruence.
  - rewrite (handleChange_accepted_state _ _ _ Hrej).
    cbn [formData errors isLoading].
    split; [apply get_set_ne; congruence |]. split; [| reflexivity].
    destruct (has_error (errors st) name && _); [| reflexivity].
    apply lookup_insert_ne. congruence.
Qed.

Lemma handleChange_frame_witness :
  get (formData (handleChange (State balanced_form ∅ false) savings "7x")) loan_emi
  = "20,000".
Proof.
  destruct (handleChange_frame (State balanced_form ∅ false) savings loan_emi "7x")
    as [H _]; [discriminate |].
  exact H.
Defined.

(** X2.  On the loan, savings and investments fields no keystroke is rejected,
    and every keystroke leaves the field without an error message. *)
Theorem handleChange_unbounded (st : state) (name : field) (value : string) :
  bounded name = false ->
  rejected name value = false
  /\ get (formData (handleChange st name value)) name = display value
  /\ has_error (errors (handleChange st name value)) name = false.
Proof.
  intros Hb.
  assert (Hrej : rejected name value = false).
  { unfold rejected. fold (bounded name). by rewrite Hb. }
  split; [exact Hrej |].
  rewrite (handleChange_accepted_state _ _ _ Hrej). cbn [formData errors].
  split; [apply get_set |].
  rewrite Hb. cbn [negb orb]. rewrite andb_true_r.
  destruct (has_error (errors st) name) eqn:E; [| exact E].
  unfold has_error. by rewrite lookup_insert_eq.
Qed.

Lemma handleChange_unbounded_witness :
  has_error
    (errors (handleChange (State empty_form {[loan_emi := msg_required]} false)
                          loan_emi "5")) loan_emi = false.
Proof.
  apply (handleChange_unbounded
           (State empty_form {[loan_emi := msg_required]} false) loan_emi "5").
  reflexivity.
Defined.

(** X3.  On the income and expenses fields a keystroke whose separator-stripped
    text is empty or does not parse is stored as typed, and the errors stay
    as they were: an error on the field is not cleared, so the submit
    button it disables stays disabled. *)
Theorem handleChange_bounded_unparsed (st : state) (name : field) (value : string) :
  bounded name = true ->
  parses (parseIndianNumber (guard (sanitize value))) = false ->
  handleChange st name value
  = State (set (formData st) name (guard (sanitize value))) (errors st) (isLoading st)
  /\ (has_error (errors st) name = true ->
      submit_disabled (handleChange st name value) = true).
Proof.
  intros Hb Hp.
  assert (Hrej : rejected name value = false).
  { unfold rejected. by rewrite Hp, andb_false_r. }
  assert (Hst : handleChange st name value
                = State (set (formData st) name (guard (sanitize value)))
                        (errors st) (isLoading st)).
  { rewrite (handleChange_accepted_state _ _ _ Hrej).
    unfold display. rewrite Hp, Hb. cbn [negb orb].
    by rewrite andb_false_r. }
  split; [exact Hst |].
  intros Herr. rewrite Hst. unfold submit_disabled. cbn [errors isLoading].
  unfold bounded in Hb. apply orb_true_iff in Hb as [Hb | Hb];
    apply bool_decide_eq_true_1 in Hb; subst name; rewrite Herr;
    by rewrite ?orb_true_r.
Qed.

Lemma handleChange_bounded_unparsed_witness :
  handleChange (State (FormData "20,000" "" "" "" "")
                      {[monthly_income := msg_income_bound]} false)
               monthly_income ""
  = State (FormData "" "" "" "" "") {[monthly_income := msg_income_bound]} false.
Proof.
  destruct (handleChange_bounded_unparsed
              (State (FormData "20,000" "" "" "" "")
                     {[monthly_income := msg_income_bound]} false)
              monthly_income "") as [H _]; [reflexivity | reflexivity |].
  exact H.
Defined.

End KeystrokeFrame.

(** ** Submission: what blocks it and what is sent *)

Section SubmissionFacts.

Lemma validateForm_pass_fields (d : form_data) :
  snd (validateForm d) = true -> forall f, checkField d f = None.
Proof.
  intros H f. rewrite <- fieldErrors_lookup.
  pose proof (validateForm_valid_empty d H) as He.
  unfold validateForm in He. cbn [fst] in He.
  destruct (gtb _ _ && gtb _ _) in He;
    [destruct (gtb (abs _) _) in He |];
    try (by rewrite He, lookup_empty).
  by apply sumErrors_nonempty in He.
Qed.

Lemma validateForm_fst_cases (d : form_data) :
  fst (validateForm d) = fieldErrors d
  \/ fst (validateForm d) = sumErrors (fieldErrors d).
Proof.
  unfold validateForm. cbn [fst].
  destruct (gtb _ _ && gtb _ _); [destruct (gtb (abs _) _) |]; auto.
Qed.

Lemma handleSubmit_invalid (net : numeric_data -> fetch_result) (st : state) :
  snd (validateForm (formData st)) = false ->
  handleSubmit net st
  = (State (formData st) (fst (validateForm (formData st))) (isLoading st),
     [PreventDefault]).
Proof.
  intros H. unfold handleSubmit.
  destruct (validateForm (formData st)) as [newErrors valid].
  cbn [fst snd] in *. by rewrite H.
Qed.

Lemma handleSubmit_valid (net : numeric_data -> fetch_result) (st : state) :
  snd (validateForm (formData st)) = true ->
  handleSubmit net st
  = match net (numericData (formData st)) with
    | Response true (Some result) =>
        (State empty_form ∅ false,
         [PreventDefault;
          Fetch "POST" predict_url (Some (numericData (formData st)));
          Navigate "/dashboard"
            (VObj [("prediction", result);
                   ("formData", numeric_value (numericData (formData st)))])])
    | _ =>
        (State (formData st) ∅ false,
         [PreventDefault;
          Fetch "POST" predict_url (Some (numericData (formData st)));
          ConsoleError "Error:"; Alert msg_alert])
    end.
Proof.
  intros H. pose proof (validateForm_valid_empty _ H) as He.
  unfold handleSubmit.
  destruct (validateForm (formData st)) as [newErrors valid].
  cbn [fst snd] in *. subst. cbn [negb].
  by destruct (net (numericData (formData st))) as [|[|] [result|]].
Qed.

(** X4.  A field that is empty once its separators are stripped blocks the
    submission whatever the other fields hold: the handler issues no
    request, keeps the five texts, and leaves on that field the
    required-field message or, when the sum check also fails, the
    sum-mismatch message. *)
Theorem empty_field_blocks_submit
    (net : numeric_data -> fetch_result) (st : state) (f : field) :
  parseIndianNumber (get (formData st) f) = "" ->
  snd (handleSubmit net st) = [PreventDefault]
  /\ formData (fst (handleSubmit net st)) = formData st
  /\ isLoading (fst (handleSubmit net st)) = isLoading st
  /\ (errors (fst (handleSubmit net st)) !! f = Some msg_required
      \/ errors (fst (handleSubmit net st)) !! f = Some (msg_sum f)).
Proof.
  intros Hraw.
  assert (Hf : fieldErrors (formData st) !! f = Some msg_required).
  { rewrite fieldErrors_lookup. unfold checkField. by rewrite Hraw. }
  assert (Hinv : snd (validateForm (formData st)) = false).
  { destruct (snd (validateForm (formData st))) eqn:E; [| reflexivity].
    pose proof (validateForm_pass_fields _ E f) as Hc.
    rewrite <- fieldErrors_lookup, Hf in Hc. discriminate. }
  rewrite (handleSubmit_invalid _ _ Hinv). cbn [fst snd formData errors isLoading].
  repeat (split; [reflexivity |]).
  destruct (validateForm_fst_cases (formData st)) as [-> | ->].
  - by left.
  - right. apply sumErrors_lookup.
Qed.

Lemma empty_field_blocks_submit_witness :
  snd (handleSubmit failing_net (State empty_savings_form ∅ false)) = [PreventDefault].
Proof.
  apply (empty_field_blocks_submit failing_net (State empty_savings_form ∅ false) savings).
  reflexivity.
Defined.

(** The record a request carries. *)
Definition request_ok (data : numeric_data) : Prop :=
  exists i e l s v,
    data = NumericData (Fin i) (Fin e) (Fin l) (Fin s) (Fin v)
    /\ 0 < i <= 150000 * scale
    /\ 0 <= e <= 150000 * scale
    /\ 0 <= l <= 10000000000 * scale
    /\ 0 <= s <= 10000000000 * scale
    /\ 0 <= v <= 10000000000 * scale.

Lemma checkField_None_bounds (d : form_data) (f : field) :
  checkField d f = None ->
  exists k, parseFloat (parseIndianNumber (get d f)) = Fin k
    /\ 0 <= k <= 10000000000 * scale
    /\ (f = monthly_income -> 0 < k <= 150000 * scale)
    /\ (f = monthly_expenses -> k <= 150000 * scale).
Proof.
  unfold checkField. rewrite sanity_ceiling_eq, bound_eq.
  destruct (String.eqb (parseIndianNumber (get d f)) ""); [discriminate |].
  destruct (parseFloat (parseIndianNumber (get d f))) as [| | |k];
    cbn [isNaN ltb gtb strict_eqb]; try discriminate.
  - rewrite andb_false_r. discriminate.
  - destruct (k <? 0) eqn:E0; [discriminate |]. apply Z.ltb_ge in E0.
    destruct (10000000000 * scale <? k) eqn:E1.
    { destruct (field_eqb f monthly_income && (k =? 0)); discriminate. }
    apply Z.ltb_ge in E1.
    unfold field_eqb.
    destruct (decide (f = monthly_income)) as [-> | Hi].
    + rewrite bool_decide_eq_true_2 by done. cbn [andb].
      destruct (k =? 0) eqn:Ez; [discriminate |]. apply Z.eqb_neq in Ez.
      destruct (150000 * scale <? k) eqn:E2; [discriminate |].
      apply Z.ltb_ge in E2. intros _. exists k.
      repeat split; (lia || discriminate).
    + rewrite (bool_decide_eq_false_2 (f = monthly_income)) by done. cbn [andb].
      destruct (decide (f = monthly_expenses)) as [-> | He].
      * rewrite bool_decide_eq_true_2 by done. cbn [andb].
        destruct (150000 * scale <? k) eqn:E2; [discriminate |].
        apply Z.ltb_ge in E2. intros _. exists k.
        repeat split; (lia || discriminate).
      * intros _. exists k. repeat split; (lia || congruence).
Qed.

(** X5.  Every request the form sends goes to the scoring endpoint with the
    numbers of the five fields, all finite and not negative, none above
    10,000,000,000, income above zero, income and expenses at most 150,000;
    and when the total allocation is above zero it is within one unit of
    the income. *)
Theorem request_well_formed
    (net : numeric_data -> fetch_result) (st : state)
    (method url : string) (body : option numeric_data) :
  In (Fetch method url body) (snd (handleSubmit net st)) ->
  method = "POST" /\ url = predict_url
  /\ body = Some (numericData (formData st))
  /\ request_ok (numericData (formData st))
  /\ (gtb (totalExpenses (formData st)) (Fin 0) = true ->
      leb (abs (balance (formData st))) (of_Z 1) = true).
Proof.
  intros Hin.
  destruct (snd (validateForm (formData st))) eqn:Hv.
  2:{ rewrite (handleSubmit_invalid _ _ Hv) in Hin. cbn [snd] in Hin.
      destruct Hin as [H | []]. discriminate. }
  assert (Hreq : Fetch method url body
                 = Fetch "POST" predict_url (Some (numericData (formData st)))).
  { rewrite (handleSubmit_valid _ _ Hv) in Hin.
    destruct (net (numericData (formData st))) as [|[|] [result|]];
      cbn [snd] in Hin;
      repeat (destruct Hin as [Hin | Hin]; try discriminate Hin; try done). }
  injection Hreq as -> -> ->.
  repeat (split; [reflexivity |]).
  pose proof (validateForm_pass_fields _ Hv) as Hfields.
  split.
  - destruct (checkField_None_bounds _ _ (Hfields monthly_income))
      as (i & Ei & _ & Hi & _).
    destruct (checkField_None_bounds _ _ (Hfields monthly_expenses))
      as (e & Ee & He0 & _ & He).
    destruct (checkField_None_bounds _ _ (Hfields loan_emi)) as (l & El & Hl & _).
    destruct (checkField_None_bounds _ _ (Hfields savings)) as (s & Es & Hs & _).
    destruct (checkField_None_bounds _ _ (Hfields investments)) as (v & Ev & Hv' & _).
    cbn [get] in *. exists i, e, l, s, v. unfold numericData.
    rewrite Ei, Ee, El, Es, Ev.
    specialize (Hi eq_refl). specialize (He eq_refl).
    repeat split; try lia.
  - intros Htot.
    destruct (valid_fields_numbers _ Hfields) as [Hnan Hinc].
    assert (Hi : gtb (income (formData st)) (Fin 0) = true).
    { destruct (checkField_None_bounds _ _ (Hfields monthly_income))
        as (i & Ei & _ & Hi & _).
      cbn [get] in Ei. rewrite Hinc, Ei. cbn [gtb ltb].
      apply Z.ltb_lt. specialize (Hi eq_refl). lia. }
    rewrite leb_negb_gtb; [| by rewrite isNaN_abs | by rewrite one_eq].
    pose proof (validateForm_valid_empty _ Hv) as He.
    unfold validateForm in He. cbn [fst] in He.
    unfold income in Hi. unfold totalExpenses in Htot.
    rewrite Hi, Htot in He. cbn [andb] in He.
    unfold balance.
    destruct (gtb (abs (calculateBalance (formData st))) (of_Z 1));
      [by apply sumErrors_nonempty in He | reflexivity].
Qed.

End SubmissionFacts.

Section SubmissionWitness.

(** The balanced scenario passes the validation. *)
Lemma balanced_form_valid : snd (validateForm balanced_form) = true.
Proof. vm_compute. reflexivity. Qed.

Lemma request_well_formed_witness : request_ok (numericData balanced_form).
Proof.
  destruct (request_well_formed failing_net (State balanced_form ∅ false)
              "POST" predict_url (Some (numericData balanced_form)))
    as (_ & _ & _ & H & _); [| exact H].
  pose proof (handleSubmit_valid failing_net (State balanced_form ∅ false)) as Hs.
  cbn [formData] in Hs. specialize (Hs balanced_form_valid).
  rewrite Hs. right. left. reflexivity.
Defined.

End SubmissionWitness.

(** ** From the entry form to the results view *)

Section Handoff.

(** X6.  After a successful submission the results view finds in its payload the
    prediction the endpoint returned and the numeric record of the form.
    When that prediction is falsy ([null], [false], [0], the empty string)
    the form has been cleared all the same, and the results view sends the
    user back to the entry form without asking for the history.  When it is
    truthy the view asks for the history, unless its render pass throws on a
    score that is not a number or a category that is an object, in which
    case it issues nothing. *)
Theorem submit_then_mount
    (net : numeric_data -> fetch_result) (st : state) (result : value) :
  snd (validateForm (formData st)) = true ->
  net (numericData (formData st)) = Response true (Some result) ->
  exists payload,
    snd (handleSubmit net st)
    = [PreventDefault;
       Fetch "POST" predict_url (Some (numericData (formData st)));
       Navigate "/dashboard" payload]
    /\ fst (handleSubmit net st) = State empty_form ∅ false
    /\ Dashboard.prediction payload = result
    /\ Dashboard.formData payload = numeric_value (numericData (formData st))
    /\ Dashboard.render_throws payload
       = (match get_prop "financial_score" result with
          | VNum _ => false | _ => true end
          || match get_prop "risk_category" result with
             | VObj _ => true | _ => false end)
    /\ Dashboard.mount payload
       = if truthy result
         then if Dashboard.render_throws payload then []
              else [ScrollTo 0 0; history_fetch]
         else [Navigate "/" VUndefined; ScrollTo 0 0; Navigate "/" VUndefined].
Proof.
  intros Hv Hnet. rewrite (handleSubmit_valid _ _ Hv), Hnet.
  eexists. split; [reflexivity |]. split; [reflexivity |].
  assert (Hp : Dashboard.prediction
                 (VObj [("prediction", result);
                        ("formData", numeric_value (numericData (formData st)))])
               = result) by reflexivity.
  split; [exact Hp |]. split; [reflexivity |]. split; [reflexivity |].
  unfold Dashboard.mount, Dashboard.render_effects, Dashboard.mount_effects.
  rewrite Hp. destruct (truthy result); cbn [andb negb app]; [| reflexivity].
  match goal with |- (if ?b then _ else _) = _ => destruct b end; reflexivity.
Qed.

Definition null_net : numeric_data -> fetch_result :=
  fun _ => Response true (Some VNull).

Lemma submit_then_mount_witness :
  (exists payload,
     snd (handleSubmit null_net (State balanced_form ∅ false))
     = [PreventDefault;
        Fetch "POST" predict_url (Some (numericData balanced_form));
        Navigate "/dashboard" payload]
     /\ Dashboard.mount payload
        = [Navigate "/" VUndefined; ScrollTo 0 0; Navigate "/" VUndefined])
  /\ (exists payload,
       snd (handleSubmit scoring_net (State balanced_form ∅ false))
       = [PreventDefault;
          Fetch "POST" predict_url (Some (numericData balanced_form));
          Navigate "/dashboard" payload]
       /\ Dashboard.mount payload = [ScrollTo 0 0; history_fetch]).
Proof.
  split.
  - pose proof (submit_then_mount null_net (State balanced_form ∅ false) VNull)
      as H.
    cbn [formData] in H.
    destruct (H balanced_form_valid eq_refl) as (payload & H1 & _ & _ & _ & _ & H2).
    exists payload. split; [exact H1 | exact H2].
  - pose proof (submit_then_mount scoring_net (State balanced_form ∅ false)
                  (VObj [("financial_score", VNum (of_Z 72));
                         ("risk_category", VStr "Moderate")])) as H.
    cbn [formData] in H.
    destruct (H balanced_form_valid eq_refl)
      as (payload & H1 & _ & _ & _ & Ht & H2).
    exists payload. split; [exact H1 |].
    rewrite H2, Ht. reflexivity.
Defined.

End Handoff.

(** ** The charts *)

Section Charts.

Lemma numericData_balance (d : form_data) :
  (forall f, checkField d f = None) ->
  sub (nd_monthly_income (numericData d))
      (add (add (add (nd_monthly_expenses (numericData d))
                     (nd_loan_emi (numericData d)))
                (nd_savings (numericData d)))
           (nd_investments (numericData d)))
  = balance d
  /\ gtb (income d) (Fin 0) = true.
Proof.
  intros H.
  destruct (checkField_None_inv d monthly_income (H _)) as (Hi & _).
  destruct (checkField_None_inv d monthly_expenses (H _)) as (He & _).
  destruct (checkField_None_inv d loan_emi (H _)) as (Hl & _).
  destruct (checkField_None_inv d savings (H _)) as (Hs & _).
  destruct (checkField_None_inv d investments (H _)) as (Hv & _).
  destruct (checkField_None_bounds d monthly_income (H _)) as (i & Ei & _ & Hpos & _).
  cbn [get] in *.
  unfold balance, calculateBalance, calculateTotalExpenses, income, numericData.
  cbn [nd_monthly_income nd_monthly_expenses nd_loan_emi nd_savings nd_investments].
  rewrite !parseIndianNumber_nonempty by done.
  split; [reflexivity |].
  rewrite Ei. cbn [gtb ltb]. apply Z.ltb_lt. specialize (Hpos eq_refl). lia.
Qed.

(** X7.  The pie chart only keeps slices whose value is above zero; and for a
    record submitted through the button (the validation passes and the
    button is enabled) the "Disposable Income" slice is never among them,
    because the button requires the balance to be exactly zero. *)
Theorem pieChartData_slices (st : state) (item : chart_item) :
  In item (pieChartData (numericData (formData st))) ->
  gtb (item_value item) (Fin 0) = true
  /\ (snd (validateForm (formData st)) = true ->
      submit_disabled st = false ->
      item_name item <> "Disposable Income").
Proof.
  unfold pieChartData. intros Hin. apply filter_In in Hin as [Hin Hpos].
  split; [exact Hpos |].
  intros Hv Hen Hname.
  destruct (numericData_balance _ (validateForm_pass_fields _ Hv)) as [Hbal Hinc].
  unfold submit_disabled in Hen. rewrite Hinc in Hen. cbn [andb] in Hen.
  apply orb_false_iff in Hen as [Hen _]. apply orb_false_iff in Hen as [Hen _].
  apply orb_false_iff in Hen as [_ Hen].
  unfold strict_neqb in Hen. apply negb_false_iff in Hen.
  unfold num, parseFloat_value in Hin. rewrite Hbal in Hin.
  destruct Hin as [<- | [<- | [<- | [<- | []]]]]; try discriminate Hname.
  cbn [item_value] in Hpos.
  destruct (balance (formData st)) as [| | |k]; try discriminate Hen.
  cbn [strict_eqb] in Hen. apply Z.eqb_eq in Hen. subst k. discriminate Hpos.
Qed.

Lemma balanced_form_enabled : submit_disabled (State balanced_form ∅ false) = false.
Proof. vm_compute. reflexivity. Qed.

Lemma pieChartData_slices_witness :
  item_name (ChartItem "Loan EMI" (num (nd_loan_emi (numericData balanced_form))))
  <> "Disposable Income".
Proof.
  assert (Hin : In (ChartItem "Loan EMI" (num (nd_loan_emi (numericData balanced_form))))
                   (pieChartData (numericData balanced_form))).
  { unfold pieChartData. apply (proj2 (filter_In _ _ _)).
    split; [right; left; reflexivity |].
    cbn [item_value]. vm_compute. reflexivity. }
  pose proof (pieChartData_slices (State balanced_form ∅ false)) as H.
  cbn [formData] in H.
  destruct (H _ Hin) as [_ H'].
  exact (H' balanced_form_valid balanced_form_enabled).
Defined.

End Charts.

(** ** The recommendations *)

Section Recommendations.

(** The four rules of [generateRecommendations], in the order they are
    examined. *)
Definition rule_expenses (d : numeric_data) : bool :=
  gtb (div (num (nd_monthly_expenses d)) (num (nd_monthly_income d)))
      (of_decimal 6 (-1)).
Definition rule_debt (d : numeric_data) : bool :=
  gtb (div (num (nd_loan_emi d)) (num (nd_monthly_income d))) (of_decimal 3 (-1)).
Definition rule_savings (d : numeric_data) : bool :=
  ltb (div (add (num (nd_savings d)) (num (nd_investments d)))
           (num (nd_monthly_income d)))
      (of_decimal 2 (-1)).
Definition rule_investments (d : numeric_data) : bool :=
  ltb (num (nd_investments d)) (mul (num (nd_savings d)) (of_decimal 5 (-1))).

Lemma generateRecommendations_rules (d : numeric_data) :
  generateRecommendations d
  = firstn 3
      (push_if
         (Nat.eqb
            (List.length
               (push_if (rule_investments d) rec_investments
                  (push_if (rule_savings d) rec_savings
                     (push_if (rule_debt d) rec_debt
                        (push_if (rule_expenses d) rec_expenses []))))) 0)
         rec_excellent
         (push_if (rule_investments d) rec_investments
            (push_if (rule_savings d) rec_savings
               (push_if (rule_debt d) rec_debt
                  (push_if (rule_expenses d) rec_expenses []))))).
Proof.
  unfold generateRecommendations, rule_expenses, rule_debt, rule_savings,
    rule_investments.
  cbv zeta. reflexivity.
Qed.

(** X8.  The view always shows between one and three recommendations.  The
    sentence of praise appears exactly when no rule fires, and then alone.
    When the first three rules fire, the advice on investments is cut off,
    whether its rule fires or not. *)
Theorem generateRecommendations_shape (d : numeric_data) :
  (1 <= List.length (generateRecommendations d) <= 3)%nat
  /\ (In rec_excellent (generateRecommendations d)
      <-> rule_expenses d = false /\ rule_debt d = false
          /\ rule_savings d = false /\ rule_investments d = false)
  /\ (In rec_excellent (generateRecommendations d)
      -> generateRecommendations d = [rec_excellent])
  /\ (rule_expenses d = true -> rule_debt d = true -> rule_savings d = true ->
      generateRecommendations d = [rec_expenses; rec_debt; rec_savings]).
Proof.
  rewrite generateRecommendations_rules.
  destruct (rule_expenses d), (rule_debt d), (rule_savings d), (rule_investments d);
    cbn [push_if app List.length Nat.eqb firstn];
    (split; [lia |]);
    (split; [split; [intros H; repeat (destruct H as [H | H]; try discriminate H);
                     try (by destruct H); done
                    | intros (? & ? & ? & ?); try discriminate; by left] |]);
    (split; [intros H; repeat (destruct H as [H | H]; try discriminate H);
             try (by destruct H); reflexivity |]);
    intros; (discriminate || reflexivity).
Qed.

Lemma generateRecommendations_shape_witness :
  generateRecommendations (numericData balanced_form) = [rec_excellent].
Proof.
  destruct (generateRecommendations_shape (numericData balanced_form))
    as (_ & [_ H] & H' & _).
  apply H', H. vm_compute. repeat split.
Defined.

End Recommendations.

(** ** The summary of the entry form and the submit button *)

Section Summary.

(** X9.  The imbalance warning of the summary and the submit button agree: when
    the warning is displayed the button is disabled; and a button that is
    disabled while nothing is loading and no error is displayed on income
    or expenses comes with the warning.  A balance that is not a number
    (a field holding a lone point, say) is captioned as over-allocated. *)
Theorem warning_and_button (st : state) :
  (warning_visible st = true -> submit_disabled st = true)
  /\ (submit_disabled st = true -> isLoading st = false ->
      field_flagged st monthly_income = false ->
      field_flagged st monthly_expenses = false ->
      warning_visible st = true)
  /\ (isNaN (balance (formData st)) = true ->
      balance_caption (balance (formData st)) = "(Over-allocated)").
Proof.
  unfold warning_visible, summary_visible, submit_disabled, field_flagged.
  split; [| split].
  - intros ->. by rewrite orb_true_r.
  - intros H Hl Hi He. rewrite Hl, Hi, He, !orb_false_r in H. exact H.
  - by destruct (balance (formData st)).
Qed.

Definition lone_point_state : state :=
  State (FormData "100" "100" "." "0" "0") ∅ false.

Lemma warning_and_button_witness :
  submit_disabled lone_point_state = true
  /\ balance_caption (balance (formData lone_point_state)) = "(Over-allocated)".
Proof.
  assert (Hnan : isNaN (balance (formData lone_point_state)) = true)
    by (vm_compute; reflexivity).
  assert (Hw : warning_visible lone_point_state = true)
    by (vm_compute; reflexivity).
  destruct (warning_and_button lone_point_state) as (H1 & _ & H3).
  split; [exact (H1 Hw) | exact (H3 Hnan)].
Defined.

End Summary.

(** ** The history table *)

Section History.

(** X10.  The history never holds more than five records: after a successful
    answer it is the first five records of the answer, the whole answer
    when it has at most five.  An answer with a status that is no success
    is dropped without a trace, and any failure leaves the history as it
    was. *)
Theorem fetchHistory_outcomes (r : history_result) (history : list value) :
  (forall data, r = HistoryResponse true (Some data) ->
     fetchHistory r history = (firstn 5 data, [])
     /\ (List.length (fst (fetchHistory r history)) <= 5)%nat
     /\ (exists rest, data = (fst (fetchHistory r history) ++ rest)%list)
     /\ ((List.length data <= 5)%nat -> fst (fetchHistory r history) = data))
  /\ (forall body, r = HistoryResponse false body ->
        fetchHistory r history = (history, []))
  /\ ((forall data, r <> HistoryResponse true (Some data)) ->
      fst (fetchHistory r history) = history).
Proof.
  split; [| split].
  - intros data ->. cbn [fetchHistory fst].
    split; [reflexivity |].
    split; [rewrite length_firstn; lia |].
    split; [exists (skipn 5 data); by rewrite firstn_skipn |].
    apply firstn_all2.
  - by intros body ->.
  - intros H. destruct r as [|[|] [data|]]; try reflexivity.
    by destruct (H data).
Qed.

Lemma fetchHistory_outcomes_witness :
  fetchHistory (HistoryResponse true
                  (Some [VNull; VNull; VNull; VNull; VNull; VNull; VNull])) []
  = ([VNull; VNull; VNull; VNull; VNull], [])
  /\ fetchHistory (HistoryResponse false None) [VNull] = ([VNull], []).
Proof.
  destruct (fetchHistory_outcomes
              (HistoryResponse true
                 (Some [VNull; VNull; VNull; VNull; VNull; VNull; VNull])) [])
    as (H1 & _).
  destruct (fetchHistory_outcomes (HistoryResponse false None) [VNull])
    as (_ & H2 & _).
  split; [apply (H1 _ eq_refl) | apply (H2 _ eq_refl)].
Defined.

End History.

(** ** What the form can hold after any sequence of events *)

Section Reachable.

(** A property of the empty text and of everything a keystroke can store
    holds of every field of every reachable state. *)
Lemma run_stored (P : string -> Prop) :
  P "" -> (forall value, P (display value)) ->
  forall evs f, P (get (formData (run evs)) f).
Proof.
  intros Hempty Hdisplay.
  assert (Hform : forall f, P (get empty_form f)) by (by intros []).
  assert (Hstep : forall st ev,
            (forall f, P (get (formData st) f)) ->
            forall f, P (get (formData (step st ev)) f)).
  { intros st [name value | | net] Hst f; cbn [step].
    - destruct (rejected name value) eqn:Hrej.
      + rewrite (handleChange_rejected _ _ _ Hrej). apply Hst.
      + rewrite (handleChange_accepted _ _ _ Hrej).
        destruct (decide (name = f)) as [-> | Hne].
        * rewrite get_set. apply Hdisplay.
        * rewrite get_set_ne by done. apply Hst.
    - apply Hform.
    - destruct (snd (validateForm (formData st))) eqn:Hv.
      + rewrite (handleSubmit_valid _ _ Hv).
        destruct (net (numericData (formData st))) as [|[|] [result|]];
          cbn [fst formData]; (apply Hst || apply Hform).
      + rewrite (handleSubmit_invalid _ _ Hv). apply Hst. }
  intros evs. unfold run.
  assert (H : forall st, (forall f, P (get (formData st) f)) ->
                         forall f, P (get (formData (fold_left step evs st)) f)).
  { induction evs as [|ev evs IH]; intros st Hst; [exact Hst |].
    cbn [fold_left]. apply IH. by apply Hstep. }
  apply H. exact Hform.
Qed.

Lemma display_nonneg (value : string) :
  ltb (parseFloat (parseIndianNumber (display value))) (Fin 0) = false.
Proof.
  unfold display. pose proof (raw_nonneg value) as Hraw.
  destruct (parses (parseIndianNumber (guard (sanitize value)))) eqn:Hp;
    [| exact Hraw].
  rewrite (parses_format _ Hp).
  destruct (parseFloat (parseIndianNumber (guard (sanitize value)))) as [| | |k].
  - by vm_compute.
  - by vm_compute.
  - discriminate Hraw.
  - cbn [ltb] in Hraw. rewrite parse_strip_format. unfold rounded_integer.
    rewrite Hraw. apply of_Z_nonneg, printed_integer_nonneg.
Qed.

Lemma gtb_bound_ceiling (x : number) :
  gtb x bound = false -> gtb x sanity_ceiling = false.
Proof.
  rewrite bound_eq, sanity_ceiling_eq. pose proof scale_pos.
  destruct x as [| | |k]; cbn [gtb ltb]; try done.
  intros H1. apply Z.ltb_ge in H1. apply Z.ltb_ge. lia.
Qed.

(** X11.  Whatever the user does, the validation never reports a negative value,
    and on income and expenses it never reports the sanity ceiling nor the
    150,000 bound: the texts the keystroke handler stores cannot parse to
    such numbers. *)
Theorem unreachable_messages (evs : list event) (f : field) :
  checkField (formData (run evs)) f <> Some msg_negative
  /\ (bounded f = true ->
      checkField (formData (run evs)) f <> Some msg_limit
      /\ checkField (formData (run evs)) f <> Some msg_income_bound
      /\ checkField (formData (run evs)) f <> Some msg_expenses_bound).
Proof.
  pose proof (run_stored
                (fun s => ltb (parseFloat (parseIndianNumber s)) (Fin 0) = false)
                eq_refl display_nonneg evs f) as Hneg.
  cbn beta in Hneg.
  split.
  - unfold checkField. rewrite Hneg.
    repeat match goal with
           | |- context [if ?c then _ else _] => destruct c
           end; discriminate.
  - intros Hb.
    assert (Hf : bounded_field f).
    { unfold bounded in Hb. apply orb_true_iff in Hb as [Hb | Hb];
        apply bool_decide_eq_true_1 in Hb; [by left | by right]. }
    pose proof (run_within_bound evs f Hf) as Hle. unfold stored_value in Hle.
    pose proof (gtb_bound_ceiling _ Hle) as Hceil.
    unfold checkField. rewrite Hneg, Hle, Hceil, !andb_false_r.
    repeat match goal with
           | |- context [if ?c then _ else _] => destruct c
           end; repeat split; discriminate.
Qed.

Lemma unreachable_messages_witness :
  checkField (formData (run [Change monthly_income "-5"])) monthly_income
  <> Some msg_limit.
Proof.
  destruct (unreachable_messages [Change monthly_income "-5"] monthly_income)
    as [_ H].
  destruct H as [H _]; [reflexivity | exact H].
Defined.

Lemma all_chars_Forall (p : ascii -> bool) (l : list ascii) :
  Forall (fun c => p c = true) l -> all_chars p (string_of_list_ascii l) = true.
Proof.
  induction 1 as [|c l Hc _ IH]; [reflexivity |].
  cbn [string_of_list_ascii all_chars]. by rewrite Hc, IH.
Qed.

Lemma format_integer_digit_or_comma (n : Z) :
  0 <= n -> all_chars digit_or_comma (Intl.format_integer n) = true.
Proof.
  intros Hn. unfold Intl.format_integer.
  apply all_chars_Forall, Forall_rev, group_indian_Forall; [reflexivity |].
  unfold Intl.le_digit_chars. apply Forall_map.
  eapply Forall_impl; [by apply le_digits_range |].
  intros d Hd. cbn beta. unfold digit_or_comma.
  by rewrite is_digit_digit_char.
Qed.

Lemma digit_or_comma_allowed (c : ascii) :
  digit_or_comma c = true -> allowed c = true.
Proof.
  unfold digit_or_comma, allowed. intros H.
  apply orb_true_iff in H as [-> | ->]; [reflexivity | by rewrite orb_true_r].
Qed.

(** What an accepted keystroke stores, when its number is finite: the
    grouped digits of a non-negative integer. *)
Lemma display_finite (value : string) (k : Z) :
  parses (parseIndianNumber (guard (sanitize value))) = true ->
  parseFloat (parseIndianNumber (guard (sanitize value))) = Fin k ->
  0 <= k /\ display value = Intl.format_integer (Intl.printed_integer k).
Proof.
  intros Hp Hk. pose proof (raw_nonneg value) as Hraw.
  rewrite Hk in Hraw. cbn [ltb] in Hraw.
  split; [by apply Z.ltb_ge |].
  unfold display. rewrite Hp, (parses_format _ Hp), Hk.
  cbn [Intl.format]. by rewrite Hraw.
Qed.

Lemma display_chars (value : string) :
  display value = "∞" \/ all_chars allowed (display value) = true.
Proof.
  destruct (parses (parseIndianNumber (guard (sanitize value)))) eqn:Hp.
  - destruct (parseFloat (parseIndianNumber (guard (sanitize value))))
      as [| | |k] eqn:Hk.
    + unfold parses in Hp. rewrite Hk in Hp. by rewrite andb_false_r in Hp.
    + left. unfold display. by rewrite Hp, (parses_format _ Hp), Hk.
    + pose proof (raw_nonneg value) as Hraw. rewrite Hk in Hraw. discriminate.
    + right. destruct (display_finite _ _ Hp Hk) as [_ ->].
      eapply all_chars_impl; [apply digit_or_comma_allowed |].
      apply format_integer_digit_or_comma, printed_integer_nonneg.
  - right. unfold display. rewrite Hp. apply all_chars_guard_sanitize.
Qed.

(** X12.  Whatever the user types or pastes, a field only ever shows digits,
    commas and points, or the infinity sign alone. *)
Theorem stored_text_alphabet (evs : list event) (f : field) :
  get (formData (run evs)) f = "∞"
  \/ all_chars allowed (get (formData (run evs)) f) = true.
Proof.
  apply (run_stored (fun s => s = "∞" \/ all_chars allowed s = true)).
  - by right.
  - apply display_chars.
Qed.

End Reachable.

(** ** The display string is stable *)

Section FixedPoint.

Lemma keep_allowed_id (s : string) :
  all_chars allowed s = true -> keep_allowed s = s.
Proof.
  induction s as [|c s IH]; [reflexivity |].
  cbn [all_chars keep_allowed]. intros H.
  apply andb_true_iff in H as [-> H]. by rewrite IH.
Qed.

Lemma count_points_digit_or_comma (s : string) :
  all_chars digit_or_comma s = true -> count_points s = O.
Proof.
  induction s as [|c s IH]; [reflexivity |].
  cbn [all_chars count_points]. intros H.
  apply andb_true_iff in H as [Hc H].
  destruct (Ascii.eqb_spec c ".") as [-> | _]; [discriminate Hc | by apply IH].
Qed.

Lemma set_set (d : form_data) (f : field) (v w : string) :
  set (set d f v) f w = set d f w.
Proof. by destruct f. Qed.

Lemma decimal_string_nonempty (n : Z) : decimal_string n <> "".
Proof.
  unfold decimal_string. pose proof (be_digits_nonempty n) as H.
  destruct (be_digits n); [done | discriminate].
Qed.

(** The grouped digits of an integer below [2^53] are a fixed point of the
    normalizer. *)
Lemma display_format_integer (n : Z) :
  0 <= n < 2 ^ 53 ->
  guard (sanitize (Intl.format_integer n)) = Intl.format_integer n
  /\ display (Intl.format_integer n) = Intl.format_integer n.
Proof.
  intros Hn.
  pose proof (format_integer_digit_or_comma n ltac:(lia)) as Hchars.
  assert (Hg : guard (sanitize (Intl.format_integer n)) = Intl.format_integer n).
  { rewrite sanitize_keep_allowed, keep_allowed_id
      by (eapply all_chars_impl; [apply digit_or_comma_allowed | exact Hchars]).
    rewrite guard_spec, count_points_digit_or_comma by exact Hchars.
    reflexivity. }
  split; [exact Hg |].
  unfold display. rewrite Hg, parseIndianNumber_format_integer by lia.
  assert (Hparse : parseFloat (decimal_string n) = Fin (n * scale)).
  { rewrite parseFloat_decimal_string by lia. by apply of_Z_exact. }
  assert (Hp : parses (decimal_string n) = true).
  { unfold parses. rewrite Hparse.
    by destruct (String.eqb_spec (decimal_string n) "") as [H | _];
      [apply decimal_string_nonempty in H |]. }
  rewrite Hp, (parses_format _ Hp), Hparse. cbn [Intl.format].
  pose proof scale_pos.
  rewrite (proj2 (Z.ltb_ge _ _)) by nia.
  rewrite printed_integer_small; rewrite round_half_expand_integer, Z.abs_eq;
    (reflexivity || lia).
Qed.

(** X13.  Feeding a field its own display back changes nothing: after an accepted
    keystroke whose number is finite and below the sanity ceiling, a second
    keystroke event carrying the text now displayed is accepted too and
    leaves the five texts as they are. *)
Theorem handleChange_stable (st : state) (name : field) (value : string) (k : Z) :
  let rawValue := parseIndianNumber (guard (sanitize value)) in
  let st' := handleChange st name value in
  rejected name value = false ->
  rawValue <> "" ->
  parseFloat rawValue = Fin k ->
  k < 10000000000 * scale ->
  rejected name (get (formData st') name) = false
  /\ formData (handleChange st' name (get (formData st') name)) = formData st'.
Proof.
  cbn zeta. intros Hrej Hne Hk Hlt.
  assert (Hp : parses (parseIndianNumber (guard (sanitize value))) = true).
  { unfold parses. rewrite Hk.
    by destruct (String.eqb_spec (parseIndianNumber (guard (sanitize value))) ""). }
  destruct (display_finite _ _ Hp Hk) as [H0 Hd].
  assert (Hn : 0 <= Intl.round_half_expand k < 2 ^ 53).
  { split; [apply round_half_expand_nonneg |].
    pose proof (round_half_expand_bound k 10000000000 ltac:(lia)). lia. }
  rewrite printed_integer_small in Hd by lia.
  assert (Hst : formData (handleChange st name value)
                = set (formData st) name
                      (Intl.format_integer (Intl.round_half_expand k))).
  { by rewrite (handleChange_accepted _ _ _ Hrej), Hd. }
  generalize dependent (handleChange st name value). intros st' Hst.
  rewrite Hst, get_set.
  destruct (display_format_integer _ Hn) as [Hg Hfix].
  assert (Hrej2 : rejected name (Intl.format_integer (Intl.round_half_expand k))
                  = false).
  { unfold rejected in *. rewrite Hg, <- Hd.
    destruct (field_eqb name monthly_income || field_eqb name monthly_expenses);
      [| reflexivity].
    cbn [andb] in *.
    pose proof (display_within_bound value Hrej) as Hb. rewrite Hb.
    by rewrite andb_false_r. }
  split; [exact Hrej2 |].
  by rewrite (handleChange_accepted _ _ _ Hrej2), Hfix, Hst, set_set.
Qed.

Lemma handleChange_stable_witness :
  formData (handleChange (handleChange initial loan_emi "1234567") loan_emi
              (get (formData (handleChange initial loan_emi "1234567")) loan_emi))
  = formData (handleChange initial loan_emi "1234567").
Proof.
  destruct (handleChange_stable initial loan_emi "1234567" (1234567 * scale))
    as [_ H].
  - reflexivity.
  - intros H; vm_compute in H; discriminate.
  - vm_compute; reflexivity.
  - reflexivity.
  - exact H.
Defined.

End FixedPoint.

(** ** A form that allocates nothing *)

Section ZeroTotal.

(** X14.  The sum check only runs when the total allocation is above zero.
    A form whose five fields pass their own checks and whose allocations
    add up to nothing therefore passes the validation with no error at all,
    although its income is not matched by any allocation. *)
Theorem validateForm_zero_total (d : form_data) :
  (forall f, checkField d f = None) ->
  gtb (totalExpenses d) (Fin 0) = false ->
  validateForm d = (∅, true).
Proof.
  intros Hfields Htot. unfold validateForm.
  unfold totalExpenses in Htot.
  rewrite (fieldErrors_empty d Hfields), Htot, andb_false_r.
  by rewrite bool_decide_eq_true_2.
Qed.

Definition unallocated_form : form_data := FormData "100" "0" "0" "0" "0".

Lemma validateForm_zero_total_witness :
  validateForm unallocated_form = (∅, true).
Proof.
  apply validateForm_zero_total.
  - intros []; vm_compute; reflexivity.
  - vm_compute; reflexivity.
Defined.

End ZeroTotal.
